(** * toxicslave: the build execution engine, embedded and verified

    A shallow embedding of [toxicslave/build.py] ([Builder], [BuildStep])
    and [toxicslave/plugins.py] (the python-venv and apt-install plugins
    and their steps), followed by theorems about the build loop, the step
    classification, the output streaming and the plugin steps.

    How the Python is read:
    - a coroutine is run to completion where it is awaited: the embedding
      is sequential, and a cancellation or a timeout is an outcome of the
      shell call that was running when it happened;
    - everything outside the two modules (the shell of [toxiccore], the
      file system, [uuid4], the process working directory, the settings
      module, the plugin registry of [toxiccore]) is an oracle collected
      in the record [Env];
    - Python exceptions are the [Raise] outcome of an effect; attributes
      that are assigned after construction live in the state that an
      effect threads, so they keep their value when an exception unwinds;
    - wall-clock fields of the messages ([started], [finished],
      [total_time], [last_step_finished]), logging and the manager's task
      registry are left out: nothing below reads them. *)

From Stdlib Require Import ZArith String Ascii List Lia DecimalString DecimalZ.
From stdpp Require Import base option list gmap strings.

Open Scope string_scope.

(** ** Python builtins used by the two modules *)

Module Py.

(** [str.lstrip(c)] for a one-character set. *)
Fixpoint lstrip (c : ascii) (s : string) : string :=
  match s with
  | EmptyString => EmptyString
  | String a s' => if Ascii.eqb a c then lstrip c s' else s
  end.

(** [str.rstrip(c)] for a one-character set. *)
Fixpoint rstrip (c : ascii) (s : string) : string :=
  match s with
  | EmptyString => EmptyString
  | String a s' =>
      match rstrip c s' with
      | EmptyString => if Ascii.eqb a c then EmptyString else String a EmptyString
      | r => String a r
      end
  end.

(** [s.strip(c)]. *)
Definition strip (c : ascii) (s : string) : string := rstrip c (lstrip c s).

(** [sep.join(l)]. *)
Definition join (sep : string) (l : list string) : string := String.concat sep l.

(** [len(s)]. *)
Definition len (s : string) : nat := String.length s.

(** [str(n)] and [format] of an [int]. *)
Definition str_int (z : Z) : string := NilEmpty.string_of_int (Z.to_int z).

(** [s.replace(c, '')] for a one-character [c]. *)
Fixpoint remove_char (c : ascii) (s : string) : string :=
  match s with
  | EmptyString => EmptyString
  | String a s' => if Ascii.eqb a c then remove_char c s' else String a (remove_char c s')
  end.

Definition startswith_char (c : ascii) (s : string) : bool :=
  match s with
  | String a _ => Ascii.eqb a c
  | EmptyString => false
  end.

Fixpoint endswith_char (c : ascii) (s : string) : bool :=
  match s with
  | EmptyString => false
  | String a EmptyString => Ascii.eqb a c
  | String _ s' => endswith_char c s'
  end.

(** [os.path.join(a, b)] of [posixpath]. *)
Definition path_join (a b : string) : string :=
  if startswith_char "/" b then b
  else if (String.eqb a "" || endswith_char "/" a)%bool then a ++ b
  else a ++ "/" ++ b.

(** The configuration values the builder config can hold (it comes from
    a YAML file): [None], booleans, integers, strings and lists of
    strings. *)
Inductive value :=
| VNone
| VBool (b : bool)
| VInt (z : Z)
| VStr (s : string)
| VList (l : list string).

(** Truth value of a Python object, as [if x] and [x or y] take it. *)
Definition truthy (v : value) : bool :=
  match v with
  | VNone => false
  | VBool b => b
  | VInt z => negb (z =? 0)%Z
  | VStr s => negb (String.eqb s "")
  | VList l => match l with [] => false | _ => true end
  end.

Definition is_space (a : ascii) : bool :=
  let n := nat_of_ascii a in
  (Nat.eqb n 32 || (Nat.leb 9 n && Nat.leb n 13))%bool.

Fixpoint lstrip_ws (s : string) : string :=
  match s with
  | EmptyString => EmptyString
  | String a s' => if is_space a then lstrip_ws s' else s
  end.

Fixpoint rstrip_ws (s : string) : string :=
  match s with
  | EmptyString => EmptyString
  | String a s' =>
      match rstrip_ws s' with
      | EmptyString => if is_space a then EmptyString else String a EmptyString
      | r => String a r
      end
  end.

Definition digit_of (a : ascii) : option Z :=
  let n := nat_of_ascii a in
  if (Nat.leb 48 n && Nat.leb n 57)%bool then Some (Z.of_nat (n - 48)) else None.

(** Digits of a decimal literal, a single underscore allowed between two
    digits; [prev] tells whether the previous character was a digit. *)
Fixpoint digits (acc : Z) (prev : bool) (s : string) : option Z :=
  match s with
  | EmptyString => if prev then Some acc else None
  | String a s' =>
      match digit_of a with
      | Some d => digits (10 * acc + d)%Z true s'
      | None =>
          if (Ascii.eqb a "_" && prev)%bool then digits acc false s' else None
      end
  end.

(** [int(s)] for a string: surrounding white space, an optional sign,
    decimal digits. [None] stands for [ValueError]. *)
Definition int (s : string) : option Z :=
  match rstrip_ws (lstrip_ws s) with
  | String "-" r => Z.opp <$> digits 0 false r
  | String "+" r => digits 0 false r
  | r => digits 0 false r
  end.

End Py.

(** ** Exceptions and effects *)

(** The exception classes that the two modules raise or let through. *)
Inductive pyexc :=
| KeyError (key : string)
| TypeError
| AttributeError
| ValueError
| PluginNotFound
| BadPluginConfig (pdict : gmap string Py.value)
| ExecCmdError (output : string)
| TimeoutError
| CancelledError.

Inductive result (A : Type) :=
| Ok (a : A)
| Raise (e : pyexc).
Arguments Ok {A} a.
Arguments Raise {A} e.

(** An effect over a state [St]: it returns or raises, and the state it
    leaves is kept in both cases. *)
Definition Eff (St A : Type) : Type := St → result A * St.

#[global] Instance Eff_ret {St} : MRet (Eff St) := λ A a st, (Ok a, st).

#[global] Instance Eff_bind {St} : MBind (Eff St) := λ A B f m st,
  match m st with
  | (Ok a, st') => f a st'
  | (Raise e, st') => (Raise e, st')
  end.

Definition raise {St A} (e : pyexc) : Eff St A := λ st, (Raise e, st).

Definition get_state {St} : Eff St St := λ st, (Ok st, st).

Definition modify_state {St} (f : St → St) : Eff St unit := λ st, (Ok tt, f st).

(** [try: m except ...: h]: the handler [h] tells which exceptions it
    takes. *)
Definition try_except {St A} (m : Eff St A) (h : pyexc → option (Eff St A)) : Eff St A :=
  λ st,
    match m st with
    | (Ok a, st') => (Ok a, st')
    | (Raise e, st') =>
        match h e with
        | Some k => k st'
        | None => (Raise e, st')
        end
    end.

(** ** Data model *)

(** The status strings of steps and builds. *)
Inductive Status := running | success | fail | warning | exception | cancelled.

#[global] Instance Status_eq_dec : EqDecision Status.
Proof. solve_decision. Defined.

(** The classes of steps: [BuildStep] and its subclasses in plugins.py,
    with the attributes each subclass adds. [install_cmd] and [reconf_cmd]
    of an [AptInstallStep] are assigned once, in [__init__], from
    [packages]: they are read as functions of [packages]. *)
Inductive StepClass :=
| CBuildStep
| CPythonCreateVenvStep (data_dir venv_dir pyversion : string)
| CAptUpdateStep
| CAptInstallStep (packages : list string) (_cmd : option string).

Record BuildStep := mkBuildStep {
  step_class : StepClass;
  name : string;
  command : string;
  warning_on_fail : bool;
  timeout : Z;
  stop_on_fail : bool
}.

(** What [execute] returns: the dict [{'status': ..., 'output': ...}]. *)
Record StepStatus := mkStepStatus {
  ss_status : Status;
  ss_output : string
}.

Record PythonVenvPlugin := mkPythonVenvPlugin {
  pv__data_dir : option string;
  pv_pyversion : string;
  pv_requirements_file : string;
  pv_remove_env : bool;
  pv_pip_command : string;
  pv_extra_indexes : list string
}.

Record AptInstallPlugin := mkAptInstallPlugin {
  ap__data_dir : option string;
  ap_packages : list string
}.

Inductive Plugin :=
| PPythonVenv (p : PythonVenvPlugin)
| PAptInstall (p : AptInstallPlugin).

Inductive PluginClass := PythonVenvPluginClass | AptInstallPluginClass.

(** An entry of [bconf['steps']]: a string or a dict. *)
Inductive StepConf :=
| StepStr (s : string)
| StepDict (sdict : gmap string Py.value).

(** The builder configuration dict. The dicts of [bconf['plugins']] are
    objects of the Python heap, held by reference: [_load_plugins] changes
    them in place. A missing key is [None]. *)
Record BuilderConf := mkBuilderConf {
  conf_name : option string;
  conf_plugins : option (list nat);
  conf_steps : option (list StepConf)
}.

(** The heap of plugin configuration dicts. *)
Abbreviation Heap := (gmap nat (gmap string Py.value)).

Record Builder := mkBuilder {
  conf : BuilderConf;
  builder_name : string;
  workdir : string;
  plugins : list Plugin;
  steps : list BuildStep;
  platform : string;
  remove_env : bool;
  envvars : gmap string string;
  STEP_OUTPUT_BUFF_LEN : nat;
  _step_output_buff : list string;
  _current_step_output_index : option nat;
  _current_step_output_buff_len : nat
}.

(** The [step_info] dict. *)
Record StepInfo := mkStepInfo {
  si_status : Status;
  si_cmd : string;
  si_name : string;
  si_index : nat;
  si_output : string;
  si_uuid : string;
  si_last_step_status : option Status
}.

(** The [build_info] dict; [bi_status] is [None] when the loop ran no step
    and [bi_total_steps] is [None] until the loop is over. *)
Record BuildInfo := mkBuildInfo {
  bi_steps : list StepInfo;
  bi_status : option Status;
  bi_total_steps : option nat
}.

(** What [manager.send_info] receives. *)
Inductive Msg :=
| build_info (b : BuildInfo)
| step_info (s : StepInfo)
| step_output_info (uuid : string) (output_index : nat) (output : string).

(** ** The environment *)

(** One call of the shell. *)
Record ShellCall := mkShellCall {
  sc_cmd : string;
  sc_cwd : string;
  sc_timeout : Z;
  sc_envvars : gmap string string
}.

(** How a shell command ends. *)
Inductive ExecOutcome :=
| Returned (output : string)
| ExecCmdErr (output : string)
| TimedOut
| Cancelled.

(** What a shell command does: the lines it hands to [out_fn], in order,
    and how it ends. *)
Record ShellRun := mkShellRun {
  run_lines : list string;
  run_outcome : ExecOutcome
}.

Record Env := mkEnv {
  (** [toxiccore]'s [exec_cmd], given the calls made so far (latest first) *)
  shell : list ShellCall → ShellCall → ShellRun;
  (** [os.path.exists], given the calls made so far *)
  path_exists : list ShellCall → string → bool;
  (** the n-th [str(uuid4())] *)
  uuid4 : nat → string;
  (** [os.path.abspath] *)
  abspath : string → string;
  (** [settings.PLUGINS_DATA_DIR]; [None] when the attribute is missing *)
  PLUGINS_DATA_DIR : option string;
  (** [SlavePlugin.get_plugin] of [toxiccore]; [None] when it raises *)
  get_plugin : Py.value → option PluginClass
}.

(** The state a build runs in: the builder object, what the manager was
    sent (oldest first), the shell calls made (latest first) and the
    number of uuids drawn. *)
Record RunState := mkRunState {
  self : Builder;
  sent : list Msg;
  shell_calls : list ShellCall;
  uuid_calls : nat
}.

Abbreviation Run := (Eff RunState).

(** A method of a step runs on the step object and the run state: [self]
    of the method is the first component. *)
Abbreviation StepEff := (Eff (BuildStep * RunState)).

(** An effect on the run state, inside a method of a step. *)
Definition in_world {A} (m : Run A) : StepEff A :=
  λ st,
    match m st.2 with
    | (r, w') => (r, (st.1, w'))
    end.

Definition get_self : StepEff BuildStep := λ st, (Ok st.1, st).

Definition set_self (s : BuildStep) : StepEff unit := λ st, (Ok tt, (s, st.2)).

(** ** build.py: [BuildStep] construction *)

(** [BuildStep.__init__]; the subclasses reach it through [super()], so
    the class of the object is an argument. *)
Definition BuildStep__init__ (cls : StepClass) (name command : string)
    (warning_on_fail : bool) (timeout : Z) (stop_on_fail : bool) : BuildStep :=
  {| step_class := cls;
     name := name;
     command := Py.strip " " command;
     warning_on_fail := warning_on_fail;
     timeout := timeout;
     stop_on_fail := stop_on_fail |}.

(** [BuildStep(name, command, ...)]. *)
Definition new_BuildStep := BuildStep__init__ CBuildStep.

(** [BuildStep.__eq__] against another step. *)
Definition BuildStep__eq__ (s other : BuildStep) : bool :=
  String.eqb (command s) (command other).

(** ** plugins.py: the steps of the plugins *)

Definition PythonCreateVenvStep__init__ (data_dir venv_dir pyversion : string) : BuildStep :=
  let name := "Create virtualenv" in
  let command := "mkdir -p " ++ data_dir ++ " && " ++ pyversion ++ " -m venv " ++ venv_dir in
  BuildStep__init__ (CPythonCreateVenvStep data_dir venv_dir pyversion)
    name command false 3600 true.

Definition AptUpdateStep__init__ (timeout : Z) : BuildStep :=
  let cmd := "sudo apt-get update" in
  let name := "Updating apt packages list" in
  BuildStep__init__ CAptUpdateStep name cmd false timeout true.

(** [self.install_cmd] of an [AptInstallStep]. *)
Definition install_cmd (packages : list string) : string :=
  let packages_str := Py.join " " packages in
  Py.join " " ["sudo apt-get install -y"; packages_str].

(** [self.reconf_cmd] of an [AptInstallStep]. *)
Definition reconf_cmd (packages : list string) : string :=
  let packages_str := Py.join " " packages in
  Py.join " " ["sudo dpkg-reconfigure"; packages_str].

Definition AptInstallStep__init__ (packages : list string) (timeout : Z) : BuildStep :=
  let name := "Installing packages with apt-get" in
  BuildStep__init__ (CAptInstallStep packages None)
    name (install_cmd packages) false timeout true.

(** [if x] for an attribute [x] that is [None] or a string: set and not
    the empty string. *)
Definition is_set (_cmd : option string) : bool :=
  match _cmd with
  | Some c => negb (String.eqb c "")
  | None => false
  end.

Section WithEnv.

Context (env : Env).

(** *** The shell of toxiccore *)

(** The shell hands the lines of the command to [out_fn], one call per
    line, with the index of the line. *)
Fixpoint feed_lines (out_fn : nat → string → Run unit) (line_index : nat)
    (lines : list string) : Run unit :=
  match lines with
  | [] => mret tt
  | line :: rest =>
      _ ← out_fn line_index line;
      feed_lines out_fn (S line_index) rest
  end.

(** [out_fn] is optional: without it the lines are dropped. *)
Definition feed (out_fn : option (nat → string → Run unit)) (lines : list string)
    : Run unit :=
  match out_fn with
  | Some f => feed_lines f 0 lines
  | None => mret tt
  end.

(** The call joins the calls made so far. *)
Definition record_call (call : ShellCall) (w : RunState) : RunState :=
  mkRunState (self w) (sent w) (call :: shell_calls w) (uuid_calls w).

(** [exec_cmd(cmd, cwd, timeout, out_fn, **envvars)] of toxiccore:
    records the call, streams the lines, then returns the output or
    raises. *)
Definition exec_cmd (cmd cwd : string) (timeout : Z)
    (out_fn : option (nat → string → Run unit))
    (envvars : gmap string string) : Run string :=
  w ← get_state;
  let call := mkShellCall cmd cwd timeout envvars in
  let run := shell env (shell_calls w) call in
  _ ← modify_state (record_call call);
  _ ← feed out_fn (run_lines run);
  match run_outcome run with
  | Returned output => mret output
  | ExecCmdErr output => raise (ExecCmdError output)
  | TimedOut => raise TimeoutError
  | Cancelled => raise CancelledError
  end.

(** *** [BuildStep] and its subclasses: [get_command] *)

(** [BuildStep.get_command]. *)
Definition BuildStep_get_command : StepEff string :=
  s ← get_self;
  mret (command s).

(** [AptInstallStep._is_everything_installed]. The timeout is the
    default of toxiccore's [exec_cmd]. *)
Definition AptInstallStep__is_everything_installed (packages : list string) : StepEff bool :=
  let cmd := "sudo dpkg -l | egrep '" ++ Py.join "|" packages ++ "' | wc -l" in
  out ← in_world (exec_cmd cmd "." 3600 None ∅);
  match Py.int out with
  | Some installed => mret (installed =? Z.of_nat (length packages))%Z
  | None => raise ValueError
  end.

(** [AptInstallStep.get_command]. *)
Definition AptInstallStep_get_command (packages : list string)
    (_cmd : option string) : StepEff string :=
  if is_set _cmd then mret (default "" _cmd)
  else
    installed ← AptInstallStep__is_everything_installed packages;
    let _cmd := if negb installed then install_cmd packages else reconf_cmd packages in
    s ← get_self;
    _ ← set_self {| step_class := CAptInstallStep packages (Some _cmd);
                    name := name s;
                    command := _cmd;
                    warning_on_fail := warning_on_fail s;
                    timeout := timeout s;
                    stop_on_fail := stop_on_fail s |};
    mret _cmd.

(** [step.get_command()]: the method of the class of the object. *)
Definition get_command : StepEff string :=
  s ← get_self;
  match step_class s with
  | CAptInstallStep packages _cmd => AptInstallStep_get_command packages _cmd
  | _ => BuildStep_get_command
  end.

(** *** [BuildStep] and its subclasses: [execute] *)

(** [BuildStep.exec_cmd]: the timeout passed on is [self.timeout]. *)
Definition BuildStep_exec_cmd (cmd cwd : string) (timeout_arg : Z)
    (out_fn : option (nat → string → Run unit))
    (envvars : gmap string string) : StepEff string :=
  s ← get_self;
  in_world (exec_cmd cmd cwd (timeout s) out_fn envvars).

(** [BuildStep.execute]. *)
Definition BuildStep_execute (cwd : string)
    (out_fn : option (nat → string → Run unit))
    (last_step_status : option Status) (last_step_output : option StepStatus)
    (envvars : gmap string string) : StepEff StepStatus :=
  '(status, output) ←
    try_except
      (cmd ← get_command;
       s ← get_self;
       output ← BuildStep_exec_cmd cmd cwd (timeout s) out_fn envvars;
       mret (success, output))
      (λ e,
         match e with
         | ExecCmdError out => Some (mret (fail, out))
         | TimeoutError =>
             Some (s ← get_self;
                   mret (exception,
                         command s ++ " has timed out in "
                           ++ Py.str_int (timeout s) ++ " seconds"))
         | CancelledError => Some (mret (cancelled, "Build cancelled"))
         | _ => None
         end);
  s ← get_self;
  let status :=
    if (warning_on_fail s && bool_decide (status ∈ [fail; exception]))%bool
    then warning else status in
  mret (mkStepStatus status output).

(** [PythonCreateVenvStep.execute]: [out_fn] and the last-step arguments
    travel in [**envvars] to [super().execute]. *)
Definition PythonCreateVenvStep_execute (venv_dir : string) (cwd : string)
    (out_fn : option (nat → string → Run unit))
    (last_step_status : option Status) (last_step_output : option StepStatus)
    (envvars : gmap string string) : StepEff StepStatus :=
  let pyexec := Py.path_join venv_dir (Py.path_join "bin" "python") in
  w ← in_world get_state;
  if path_exists env (shell_calls w) (Py.path_join cwd pyexec)
  then mret (mkStepStatus success "venv exists. Skipping...")
  else BuildStep_execute cwd out_fn last_step_status last_step_output envvars.

(** [step.execute(...)]: the method of the class of the object. *)
Definition execute (cwd : string)
    (out_fn : option (nat → string → Run unit))
    (last_step_status : option Status) (last_step_output : option StepStatus)
    (envvars : gmap string string) : StepEff StepStatus :=
  s ← get_self;
  match step_class s with
  | CPythonCreateVenvStep _ venv_dir _ =>
      PythonCreateVenvStep_execute venv_dir cwd out_fn last_step_status
        last_step_output envvars
  | _ => BuildStep_execute cwd out_fn last_step_status last_step_output envvars
  end.

(** *** plugins.py: the plugins *)

(** A call with a dict for keyword arguments binds them to parameters:
    a key that is no parameter, or a parameter without default that is
    missing, is a [TypeError]. *)
Definition kwargs_ok (params required : list string) (kwargs : gmap string Py.value) : bool :=
  bool_decide (dom kwargs ⊆ list_to_set params)
  && forallb (λ k, bool_decide (is_Some (kwargs !! k))) required.

(** [SlavePlugin.data_dir] for a plugin called [plugin_name]. The
    property also stores what it returns in [_data_dir]; with the
    settings fixed that is the value it would compute again, so the
    store is not threaded. *)
Definition SlavePlugin_data_dir (_data_dir : option string) (plugin_name : string) : string :=
  if is_set _data_dir then default "" _data_dir
  else
    let data_dir := default (Py.path_join ".." ".") (PLUGINS_DATA_DIR env) in
    Py.path_join data_dir plugin_name.

(** [PythonVenvPlugin] called with [pdict] for keyword arguments. Python
    stores whatever object it is given; the embedding is typed, and a
    value of another type than the plugin works with is a [TypeError]
    here. *)
Definition PythonVenvPlugin__init__ (pdict : gmap string Py.value) : result PythonVenvPlugin :=
  if negb (kwargs_ok ["pyversion"; "requirements_file"; "remove_env"; "extra_indexes"]
             ["pyversion"] pdict)
  then Raise TypeError
  else
    match pdict !! "pyversion",
          default (Py.VStr "requirements.txt") (pdict !! "requirements_file"),
          default (Py.VBool false) (pdict !! "remove_env"),
          default Py.VNone (pdict !! "extra_indexes") with
    | Some (Py.VStr pyversion), Py.VStr requirements_file, remove_env, extra_indexes =>
        match (if Py.truthy extra_indexes then extra_indexes else Py.VList []) with
        | Py.VList extra_indexes =>
            Ok {| pv__data_dir := None;
                  pv_pyversion := pyversion;
                  pv_requirements_file := requirements_file;
                  pv_remove_env := Py.truthy remove_env;
                  pv_pip_command := "pip";
                  pv_extra_indexes := extra_indexes |}
        | _ => Raise TypeError
        end
    | _, _, _, _ => Raise TypeError
    end.

(** [AptInstallPlugin] called with [pdict] for keyword arguments;
    [timeout] is accepted and dropped. *)
Definition AptInstallPlugin__init__ (pdict : gmap string Py.value) : result AptInstallPlugin :=
  if negb (kwargs_ok ["packages"; "timeout"] ["packages"] pdict)
  then Raise TypeError
  else
    match pdict !! "packages" with
    | Some (Py.VList packages) =>
        Ok {| ap__data_dir := None; ap_packages := packages |}
    | _ => Raise TypeError
    end.

Definition PythonVenvPlugin_data_dir (p : PythonVenvPlugin) : string :=
  SlavePlugin_data_dir (pv__data_dir p) "python-venv".

(** [PythonVenvPlugin.venv_dir]; [os.sep] is the slash. *)
Definition PythonVenvPlugin_venv_dir (p : PythonVenvPlugin) : string :=
  Py.path_join (PythonVenvPlugin_data_dir p)
    ("venv-" ++ Py.remove_char "/" (pv_pyversion p)).

Definition PythonVenvPlugin_get_steps_before (p : PythonVenvPlugin) : list BuildStep :=
  let create_env :=
    PythonCreateVenvStep__init__ (PythonVenvPlugin_data_dir p)
      (PythonVenvPlugin_venv_dir p) (pv_pyversion p) in
  let extra_indexes :=
    fold_left (λ acc i, acc ++ "--extra-index-url=" ++ i ++ " ") (pv_extra_indexes p) "" in
  let install_deps :=
    new_BuildStep "install dependencies using pip"
      (pv_pip_command p ++ " install -r " ++ pv_requirements_file p ++ " " ++ extra_indexes)
      false 3600 true in
  [create_env; install_deps].

Definition PythonVenvPlugin_get_steps_after (p : PythonVenvPlugin) : list BuildStep :=
  if pv_remove_env p
  then [new_BuildStep "remove venv" ("rm -rf " ++ PythonVenvPlugin_venv_dir p) false 3600 false]
  else [].

Definition PythonVenvPlugin_get_env_vars (p : PythonVenvPlugin) : gmap string string :=
  {[ "PATH" := PythonVenvPlugin_venv_dir p ++ "/bin:PATH" ]}.

Definition AptInstallPlugin_get_steps_before (p : AptInstallPlugin) : list BuildStep :=
  let update := AptUpdateStep__init__ 600 in
  let install := AptInstallStep__init__ (ap_packages p) 600 in
  [update; install].

Definition AptInstallPlugin_get_env_vars (p : AptInstallPlugin) : gmap string string :=
  {[ "DEBIAN_FRONTEND" := "noninteractive" ]}.

(** [plugin_class] called with [pdict] for keyword arguments. *)
Definition new_plugin (plugin_class : PluginClass) (pdict : gmap string Py.value) : result Plugin :=
  match plugin_class with
  | PythonVenvPluginClass =>
      match PythonVenvPlugin__init__ pdict with
      | Ok p => Ok (PPythonVenv p)
      | Raise e => Raise e
      end
  | AptInstallPluginClass =>
      match AptInstallPlugin__init__ pdict with
      | Ok p => Ok (PAptInstall p)
      | Raise e => Raise e
      end
  end.

Definition get_steps_before (plugin : Plugin) : list BuildStep :=
  match plugin with
  | PPythonVenv p => PythonVenvPlugin_get_steps_before p
  | PAptInstall p => AptInstallPlugin_get_steps_before p
  end.

(** [AptInstallPlugin] inherits [SlavePlugin.get_steps_after]. *)
Definition get_steps_after (plugin : Plugin) : list BuildStep :=
  match plugin with
  | PPythonVenv p => PythonVenvPlugin_get_steps_after p
  | PAptInstall p => []
  end.

Definition get_env_vars (plugin : Plugin) : gmap string string :=
  match plugin with
  | PPythonVenv p => PythonVenvPlugin_get_env_vars p
  | PAptInstall p => AptInstallPlugin_get_env_vars p
  end.

(** *** build.py: [Builder] construction *)

(** The dict a reference points at. Every reference of a config points
    at a dict; one outside the heap reads as the empty dict. *)
Definition deref (r : nat) : Eff Heap (gmap string Py.value) :=
  h ← get_state;
  mret (default ∅ (h !! r)).

(** [pdict[key]]. *)
Definition getitem (pdict : gmap string Py.value) (key : string) : Eff Heap Py.value :=
  match pdict !! key with
  | Some v => mret v
  | None => raise (KeyError key)
  end.

(** [del pdict[key]] on the dict behind [r]. *)
Definition delitem (r : nat) (key : string) : Eff Heap unit :=
  pdict ← deref r;
  match pdict !! key with
  | Some _ => modify_state (λ h : Heap, <[r := delete key pdict]> h)
  | None => raise (KeyError key)
  end.

Definition lift_result {St A} (r : result A) : Eff St A := λ st, (r, st).

(** The loop of [Builder._load_plugins]. *)
Fixpoint _load_plugins_loop (plugins_config : list nat) (plist : list Plugin)
    : Eff Heap (list Plugin) :=
  match plugins_config with
  | [] => mret plist
  | r :: rest =>
      plugin_class ←
        try_except
          (pdict ← deref r;
           pname ← getitem pdict "name";
           match get_plugin env pname with
           | Some plugin_class => mret plugin_class
           | None => raise PluginNotFound
           end)
          (λ e,
             match e with
             | KeyError _ => Some (pdict ← deref r; raise (BadPluginConfig pdict))
             | _ => None
             end);
      _ ← delitem r "name";
      pdict ← deref r;
      plugin ← lift_result (new_plugin plugin_class pdict);
      _load_plugins_loop rest (plist ++ [plugin])
  end.

(** [Builder._load_plugins]. *)
Definition Builder__load_plugins (conf : BuilderConf) : Eff Heap (list Plugin) :=
  let plugins_config := default [] (conf_plugins conf) in
  _load_plugins_loop plugins_config [].

(** [BuildStep] called with [sdict] for keyword arguments. [name] and
    [timeout] are typed as for the plugins; a [command] without [strip]
    is an [AttributeError]. *)
Definition BuildStep_of_dict (sdict : gmap string Py.value) : result BuildStep :=
  if negb (kwargs_ok ["name"; "command"; "warning_on_fail"; "timeout"; "stop_on_fail"]
             ["name"; "command"] sdict)
  then Raise TypeError
  else
    match sdict !! "name", sdict !! "command",
          default (Py.VInt 3600) (sdict !! "timeout") with
    | Some (Py.VStr name), Some (Py.VStr command), Py.VInt timeout =>
        Ok (new_BuildStep name command
              (Py.truthy (default (Py.VBool false) (sdict !! "warning_on_fail")))
              timeout
              (Py.truthy (default (Py.VBool false) (sdict !! "stop_on_fail"))))
    | Some (Py.VStr _), Some _, Py.VInt _ => Raise AttributeError
    | _, _, _ => Raise TypeError
    end.

(** The loop over [self.conf['steps']] in [Builder._get_steps]. *)
Fixpoint _get_steps_loop (confs : list StepConf) (steps : list BuildStep)
    : result (list BuildStep) :=
  match confs with
  | [] => Ok steps
  | sdict :: rest =>
      let sdict :=
        match sdict with
        | StepStr s => {[ "name" := Py.VStr s; "command" := Py.VStr s ]}
        | StepDict d => d
        end in
      match BuildStep_of_dict sdict with
      | Ok step => _get_steps_loop rest (steps ++ [step])
      | Raise e => Raise e
      end
  end.

(** [Builder._get_steps]. *)
Definition Builder__get_steps (conf : BuilderConf) (plugins : list Plugin)
    : result (list BuildStep) :=
  let plugin_before := concat (map get_steps_before plugins) in
  let plugin_after := concat (map get_steps_after plugins) in
  let steps := plugin_before in
  match conf_steps conf with
  | None => Raise (KeyError "steps")
  | Some confs =>
      match _get_steps_loop confs steps with
      | Ok steps => Ok (steps ++ plugin_after)%list
      | Raise e => Raise e
      end
  end.

(** [Builder.__init__]. [buff_len] is the class attribute
    [STEP_OUTPUT_BUFF_LEN] of the class that is instantiated: 0 in
    [Builder], and a subclass may set another. *)
Definition Builder__init__ (buff_len : nat) (bconf : BuilderConf) (workdir platform : string)
    (remove_env : bool) (envvars : gmap string string) : Eff Heap Builder :=
  match conf_name bconf with
  | None => raise (KeyError "name")
  | Some name =>
      plugins ← Builder__load_plugins bconf;
      steps ← lift_result (Builder__get_steps bconf plugins);
      mret {| conf := bconf;
              builder_name := name;
              workdir := workdir;
              plugins := plugins;
              steps := steps;
              platform := platform;
              remove_env := remove_env;
              envvars := envvars;
              STEP_OUTPUT_BUFF_LEN := buff_len;
              _step_output_buff := [];
              _current_step_output_index := None;
              _current_step_output_buff_len := 0 |}
  end.

(** [Builder(manager, bconf, workdir, ...)]. *)
Definition new_Builder := Builder__init__ 0.

(** *** build.py: the build *)

Definition get_builder : Run Builder := w ← get_state; mret (self w).

Definition set_builder (b : Builder) : Run unit :=
  modify_state (λ w, mkRunState b (sent w) (shell_calls w) (uuid_calls w)).

(** [await self.manager.send_info(msg)]. *)
Definition send_info (msg : Msg) : Run unit :=
  modify_state (λ w, mkRunState (self w) (sent w ++ [msg]) (shell_calls w) (uuid_calls w)).

(** [str(uuid4())]. *)
Definition new_uuid : Run string :=
  w ← get_state;
  _ ← modify_state (λ w, mkRunState (self w) (sent w) (shell_calls w) (S (uuid_calls w)));
  mret (uuid4 env (uuid_calls w)).

(** Assignment of the three attributes of the output buffer. *)
Definition with_output_buff (b : Builder) (buff : list string) (index : option nat)
    (buff_len : nat) : Builder :=
  {| conf := conf b;
     builder_name := builder_name b;
     workdir := workdir b;
     plugins := plugins b;
     steps := steps b;
     platform := platform b;
     remove_env := remove_env b;
     envvars := envvars b;
     STEP_OUTPUT_BUFF_LEN := STEP_OUTPUT_BUFF_LEN b;
     _step_output_buff := buff;
     _current_step_output_index := index;
     _current_step_output_buff_len := buff_len |}.

(** [self.steps[index]] is the object [step]: what a method did to it
    is seen through the list. *)
Definition with_step (b : Builder) (index : nat) (step : BuildStep) : Builder :=
  {| conf := conf b;
     builder_name := builder_name b;
     workdir := workdir b;
     plugins := plugins b;
     steps := <[index := step]> (steps b);
     platform := platform b;
     remove_env := remove_env b;
     envvars := envvars b;
     STEP_OUTPUT_BUFF_LEN := STEP_OUTPUT_BUFF_LEN b;
     _step_output_buff := _step_output_buff b;
     _current_step_output_index := _current_step_output_index b;
     _current_step_output_buff_len := _current_step_output_buff_len b |}.

(** A method call on the step at [index] of [self.steps]: it returns
    what the method returns and the object as the method left it. *)
Definition call_step {A} (index : nat) (step : BuildStep) (m : StepEff A)
    : Run (A * BuildStep) :=
  λ w,
    match m (step, w) with
    | (r, (step', w')) =>
        (match r with
         | Ok a => Ok (a, step')
         | Raise e => Raise e
         end,
         mkRunState (with_step (self w') index step') (sent w') (shell_calls w')
           (uuid_calls w'))
    end.

(** [Builder._clear_step_output_buff]. *)
Definition Builder__clear_step_output_buff : Run unit :=
  b ← get_builder;
  set_builder (with_output_buff b [] None 0).

(** [Builder._flush_step_output_buff]. *)
Definition Builder__flush_step_output_buff (step_uuid : string) : Run unit :=
  b ← get_builder;
  let index :=
    match _current_step_output_index b with
    | None => 0
    | Some i => i + 1
    end in
  _ ← set_builder (with_output_buff b (_step_output_buff b) (Some index)
                     (_current_step_output_buff_len b));
  b ← get_builder;
  let msg := step_output_info step_uuid index
               (Py.strip "010" (Py.join "" (_step_output_buff b))) in
  _ ← send_info msg;
  b ← get_builder;
  set_builder (with_output_buff b [] (_current_step_output_index b) 0).

(** [Builder._send_step_output_info]. *)
Definition Builder__send_step_output_info (info : StepInfo) (line_index : nat)
    (line : string) : Run unit :=
  b ← get_builder;
  _ ← set_builder (with_output_buff b (_step_output_buff b ++ [line])
                     (_current_step_output_index b)
                     (_current_step_output_buff_len b + Py.len line));
  b ← get_builder;
  if negb (STEP_OUTPUT_BUFF_LEN b <? _current_step_output_buff_len b)%nat
  then mret tt
  else Builder__flush_step_output_buff (si_uuid info).

(** [Builder._get_env_vars]: each plugin's variables are written over
    the ones before. *)
Definition Builder__get_env_vars : Run (gmap string string) :=
  b ← get_builder;
  mret (fold_left (λ envvars plugin, get_env_vars plugin ∪ envvars) (plugins b) (envvars b)).

(** [Builder._get_tmp_dir]. *)
Definition Builder__get_tmp_dir : Run string :=
  b ← get_builder;
  mret (abspath env (workdir b) ++ "-" ++ builder_name b).

(** The local variables of [_do_build] that a pass of the loop reads
    and writes; [lv_steps] is [build_info['steps']]. *)
Record LoopVars := mkLoopVars {
  build_status : option Status;
  last_step_status : option Status;
  last_step_output : option StepStatus;
  lv_steps : list StepInfo
}.

(** [step_info.update(step_exec_output)]. *)
Definition update_step_info (info : StepInfo) (out : StepStatus) : StepInfo :=
  {| si_status := ss_status out;
     si_cmd := si_cmd info;
     si_name := si_name info;
     si_index := si_index info;
     si_output := ss_output out;
     si_uuid := si_uuid info;
     si_last_step_status := si_last_step_status info |}.

(** The body of the [for] loop of [_do_build], up to the two [break]s:
    it returns the variables and whether the loop goes on. *)
Definition _do_build_step (index : nat) (step : BuildStep) (v : LoopVars)
    : Run (LoopVars * bool) :=
  _ ← Builder__clear_step_output_buff;
  '(cmd, step) ← call_step index step get_command;
  uuid ← new_uuid;
  let info := {| si_status := running;
                 si_cmd := cmd;
                 si_name := name step;
                 si_index := index;
                 si_output := "";
                 si_uuid := uuid;
                 si_last_step_status := last_step_status v |} in
  _ ← send_info (step_info info);
  envvars ← Builder__get_env_vars;
  let out_fn := Builder__send_step_output_info info in
  cwd ← Builder__get_tmp_dir;
  '(step_exec_output, step) ←
    call_step index step
      (execute cwd (Some out_fn) (last_step_status v) (last_step_output v) envvars);
  let info := update_step_info info step_exec_output in
  _ ← Builder__flush_step_output_buff (si_uuid info);
  let status := si_status info in
  _ ← send_info (step_info info);
  let build_status :=
    match build_status v with
    | None | Some success => Some status
    | other => other
    end in
  let v := {| build_status := build_status;
              last_step_status := Some status;
              last_step_output := Some step_exec_output;
              lv_steps := lv_steps v ++ [info] |} in
  if bool_decide (status = cancelled) then mret (v, false)
  else if (bool_decide (status ∈ [fail; exception]) && stop_on_fail step)%bool
       then mret (v, false)
       else mret (v, true).

(** [for index, step in enumerate(self.steps)]. *)
Fixpoint _do_build_loop (index : nat) (steps : list BuildStep) (v : LoopVars)
    : Run LoopVars :=
  match steps with
  | [] => mret v
  | step :: rest =>
      '(v, go_on) ← _do_build_step index step v;
      if go_on : bool then _do_build_loop (S index) rest v else mret v
  end.

(** [Builder._do_build]. *)
Definition Builder__do_build : Run BuildInfo :=
  _ ← send_info (build_info {| bi_steps := [];
                               bi_status := Some running;
                               bi_total_steps := None |});
  b ← get_builder;
  v ← _do_build_loop 0 (steps b) (mkLoopVars None None None []);
  b ← get_builder;
  mret {| bi_steps := lv_steps v;
          bi_status := build_status v;
          bi_total_steps := Some (length (steps b)) |}.

End WithEnv.

(** ** build.py: the workspace of a build *)

Section Workspace.

Context (env : Env).

(** [Builder._copy_workdir]; the two commands run through the shell of
    toxiccore with its default timeout, without [out_fn] and without
    variables. *)
Definition Builder__copy_workdir : Run unit :=
  tmp_dir ← Builder__get_tmp_dir env;
  let mkdir_cmd := "mkdir -p " ++ tmp_dir in
  _ ← exec_cmd env mkdir_cmd "." 3600 None ∅;
  b ← get_builder;
  let cp_cmd := "cp -R " ++ workdir b ++ "/* " ++ tmp_dir in
  _ ← exec_cmd env cp_cmd "." 3600 None ∅;
  mret tt.

(** [Builder._remove_tmp_dir]. *)
Definition Builder__remove_tmp_dir : Run unit :=
  tmp_dir ← Builder__get_tmp_dir env;
  let rm_cmd := "rm -rf " ++ tmp_dir in
  _ ← exec_cmd env rm_cmd "." 3600 None ∅;
  mret tt.

(** [Builder.__aenter__]. *)
Definition Builder__aenter__ : Run unit := Builder__copy_workdir.

(** [Builder.__aexit__]; it returns [None], so it swallows nothing. *)
Definition Builder__aexit__ : Run unit :=
  b ← get_builder;
  if remove_env b then Builder__remove_tmp_dir else mret tt.

(** [async with manager: body], for a manager whose [__aexit__] returns
    [None]: when [__aenter__] raises nothing else runs; [__aexit__] runs
    after the body, whether the body returned or raised; what
    [__aexit__] raises replaces what the body returned or raised. *)
Definition async_with {A} (aenter aexit : Run unit) (body : Run A) : Run A :=
  λ w0,
    match aenter w0 with
    | (Raise e, w) => (Raise e, w)
    | (Ok _, w) =>
        match body w with
        | (r, w1) =>
            match aexit w1 with
            | (Ok _, w2) => (r, w2)
            | (Raise e, w2) => (Raise e, w2)
            end
        end
    end.

(** [Builder.build]; [_run_in_build_env] returns [self]. *)
Definition Builder_build : Run BuildInfo :=
  async_with Builder__aenter__ Builder__aexit__ (Builder__do_build env).

End Workspace.

(** ** Vocabulary of the statements *)

(** Every character of [s] is [c]. *)
Fixpoint only_char (c : ascii) (s : string) : bool :=
  match s with
  | EmptyString => true
  | String a s' => Ascii.eqb a c && only_char c s'
  end.

(** What [BuildStep.execute] answers when the shell ends with [o]. *)
Definition outcome_status (s : BuildStep) (o : ExecOutcome) : StepStatus :=
  match o with
  | Returned output => mkStepStatus success output
  | ExecCmdErr output => mkStepStatus (if warning_on_fail s then warning else fail) output
  | TimedOut =>
      mkStepStatus (if warning_on_fail s then warning else exception)
        (command s ++ " has timed out in " ++ Py.str_int (timeout s) ++ " seconds")
  | Cancelled => mkStepStatus cancelled "Build cancelled"
  end.

(** The command of a step is settled when [get_command] answers it and
    touches nothing. *)
Definition settled (env : Env) (s : BuildStep) (cmd : string) : Prop :=
  ∀ w, get_command env (s, w) = (Ok cmd, (s, w)).

(** The call by which an [AptInstallStep] counts the installed packages. *)
Definition dpkg_probe (packages : list string) : ShellCall :=
  mkShellCall ("sudo dpkg -l | egrep '" ++ Py.join "|" packages ++ "' | wc -l") "." 3600 ∅.

(** *** The output of a step, batch by batch *)

(** The index the next [step_output_info] carries. *)
Definition next_index (index : option nat) : nat :=
  match index with
  | None => 0
  | Some i => i + 1
  end.

(** The index attribute after [n] messages. *)
Definition index_after (index : option nat) (n : nat) : option nat :=
  match n with
  | 0 => index
  | S m => Some (next_index index + m)
  end.

(** The lines handed to [out_fn], cut where the buffer is flushed: the
    batches flushed while the lines come in, then the buffer that is left
    and its length. [T] is [STEP_OUTPUT_BUFF_LEN]; [buff] and [buff_len]
    are the buffer and its length before the first line. *)
Fixpoint stream (T : nat) (buff : list string) (buff_len : nat) (lines : list string)
    : list (list string) * (list string * nat) :=
  match lines with
  | [] => ([], (buff, buff_len))
  | line :: rest =>
      let buff' := (buff ++ [line])%list in
      let buff_len' := buff_len + Py.len line in
      if (T <? buff_len')%nat
      then (buff' :: (stream T [] 0 rest).1, (stream T [] 0 rest).2)
      else stream T buff' buff_len' rest
  end.

(** The buffers flushed for a step: those flushed while its lines come
    in, then what the flush after the step finds. *)
Definition batches (T : nat) (lines : list string) : list (list string) :=
  ((stream T [] 0 lines).1 ++ [(stream T [] 0 lines).2.1])%list.

(** The [step_output_info] messages for buffers flushed one after the
    other, the first with index [start]. *)
Fixpoint output_msgs (uuid : string) (start : nat) (buffs : list (list string)) : list Msg :=
  match buffs with
  | [] => []
  | buff :: rest =>
      step_output_info uuid start (Py.strip "010" (Py.join "" buff))
        :: output_msgs uuid (S start) rest
  end.

(** What the manager is sent for one step: the running [step_info], the
    output of the step and the final [step_info]. *)
Definition step_trace (T : nat) (info : StepInfo) (out : StepStatus) (lines : list string)
    : list Msg :=
  (step_info info :: output_msgs (si_uuid info) 0 (batches T lines)
     ++ [step_info (update_step_info info out)])%list.

(** The [output_index] of the [step_output_info] messages of a list. *)
Definition output_indexes (msgs : list Msg) : list nat :=
  omap (λ m, match m with step_output_info _ i _ => Some i | _ => None end) msgs.


(** A buffer of empty lines. *)
Definition blank (buff : list string) : Prop := Forall (λ line, line = "") buff.

(** *** The build loop *)

(** The two [break]s of the loop. *)
Definition stops (status : Status) (stop_on_fail : bool) : bool :=
  bool_decide (status = cancelled)
  || (bool_decide (status ∈ [fail; exception]) && stop_on_fail).

(** [build_status] after a step with status [status]. *)
Definition next_build_status (build_status : option Status) (status : Status) : option Status :=
  match build_status with
  | None | Some success => Some status
  | other => other
  end.

(** One pass of the loop, as the manager sees it: the running
    [step_info], what [execute] answered, and the lines the command of
    the step handed to [out_fn]. *)
Record StepRun := mkStepRun {
  sr_info : StepInfo;
  sr_out : StepStatus;
  sr_lines : list string
}.

Definition run_status (run : StepRun) : Status := ss_status (sr_out run).

(** The final [step_info] of a pass. *)
Definition run_final (run : StepRun) : StepInfo :=
  update_step_info (sr_info run) (sr_out run).

Definition run_trace (T : nat) (run : StepRun) : list Msg :=
  step_trace T (sr_info run) (sr_out run) (sr_lines run).

(** The variables of the loop after a pass. *)
Definition after_run (v : LoopVars) (run : StepRun) : LoopVars :=
  {| build_status := next_build_status (build_status v) (run_status run);
     last_step_status := Some (run_status run);
     last_step_output := Some (sr_out run);
     lv_steps := lv_steps v ++ [run_final run] |}.

(** The pass [run] is the pass of [step], at [index]. *)
Definition starts (index : nat) (step : BuildStep) (run : StepRun) : Prop :=
  si_status (sr_info run) = running
  ∧ si_index (sr_info run) = index
  ∧ si_name (sr_info run) = name step
  ∧ si_output (sr_info run) = "".

(** The passes of a loop that came to its end over [steps], the first
    step at [index]: a pass that stops is the last one, a pass that does
    not is followed by the pass of the next step. *)
Inductive loop_runs : nat → list BuildStep → list StepRun → Prop :=
| loop_done index :
    loop_runs index [] []
| loop_break index step rest run :
    starts index step run →
    stops (run_status run) (stop_on_fail step) = true →
    loop_runs index (step :: rest) [run]
| loop_next index step rest run runs :
    starts index step run →
    stops (run_status run) (stop_on_fail step) = false →
    loop_runs (S index) rest runs →
    loop_runs index (step :: rest) (run :: runs).

(** The lines of a pass, if any, are the lines of a call among [calls]
    that ran the command of the step. *)
Definition lines_from (env : Env) (calls : list ShellCall) (run : StepRun) : Prop :=
  sr_lines run = []
  ∨ ∃ call hist,
      call ∈ calls
      ∧ sc_cmd call = si_cmd (sr_info run)
      ∧ sr_lines run = run_lines (shell env hist call).

(** The first status of a list that is not success; success when there is
    none, [None] for the empty list. *)
Fixpoint first_non_success (statuses : list Status) : option Status :=
  match statuses with
  | [] => None
  | status :: rest =>
      if bool_decide (status = success)
      then match first_non_success rest with
           | None => Some success
           | other => other
           end
      else Some status
  end.



(** The string of one newline. *)
Definition newline : string := String "010" "".

(** The output of a message as the spec words it: the buffer joined by
    newline, then stripped of newlines at both ends. *)
Definition newline_joined (buff : list string) : string :=
  Py.strip "010" (Py.join newline buff).

(** A [step_output_info] of the step with this uuid. *)
Definition is_output_of (uuid : string) (msg : Msg) : Prop :=
  match msg with
  | step_output_info u _ _ => u = uuid
  | _ => False
  end.

(** *** What a build leaves alone *)

(** The attributes of a builder that a build never assigns, and the
    number of its steps. *)
Definition same_settings (b b' : Builder) : Prop :=
  conf b' = conf b
  ∧ builder_name b' = builder_name b
  ∧ workdir b' = workdir b
  ∧ plugins b' = plugins b
  ∧ platform b' = platform b
  ∧ remove_env b' = remove_env b
  ∧ envvars b' = envvars b
  ∧ STEP_OUTPUT_BUFF_LEN b' = STEP_OUTPUT_BUFF_LEN b
  ∧ length (steps b') = length (steps b).

(** The directory the steps of a builder run in. *)
Definition tmp_dir (env : Env) (b : Builder) : string :=
  abspath env (workdir b) ++ "-" ++ builder_name b.

(** The variables the steps of a builder run with. *)
Definition step_envvars (env : Env) (b : Builder) : gmap string string :=
  fold_left (λ envvars plugin, get_env_vars env plugin ∪ envvars) (plugins b) (envvars b).

(** A call of the shell that a pass of the loop over [step] may make:
    the probe of an apt-install step, or a command run in the directory
    of the builder, with its variables and the timeout of the step. *)
Definition step_call (env : Env) (b : Builder) (step : BuildStep) (call : ShellCall) : Prop :=
  (∃ packages, call = dpkg_probe packages)
  ∨ (sc_cwd call = tmp_dir env b
     ∧ sc_envvars call = step_envvars env b
     ∧ sc_timeout call = timeout step).

(** The statuses [execute] can answer. *)
Definition terminal (status : Status) : Prop := status ≠ running.

(** The three calls of the shell around a build: [_copy_workdir] makes
    the temporary directory and copies the workdir into it,
    [_remove_tmp_dir] removes it. *)
Definition mkdir_call (env : Env) (b : Builder) : ShellCall :=
  mkShellCall ("mkdir -p " ++ tmp_dir env b) "." 3600 ∅.

Definition cp_call (env : Env) (b : Builder) : ShellCall :=
  mkShellCall ("cp -R " ++ workdir b ++ "/* " ++ tmp_dir env b) "." 3600 ∅.

Definition rm_call (env : Env) (b : Builder) : ShellCall :=
  mkShellCall ("rm -rf " ++ tmp_dir env b) "." 3600 ∅.

(** What [exec_cmd] does with the outcome of a command when nothing
    listens to its lines. *)
Definition outcome_result (outcome : ExecOutcome) : result string :=
  match outcome with
  | Returned output => Ok output
  | ExecCmdErr output => Raise (ExecCmdError output)
  | TimedOut => Raise TimeoutError
  | Cancelled => Raise CancelledError
  end.


(** The plugin dict behind [r] in the heap [h] loads as [plugin]: its
    name is registered, and the class registered under it accepts the
    other keys of the dict as keyword arguments. *)
Definition loads_as (env : Env) (h : Heap) (r : nat) (plugin : Plugin) : Prop :=
  ∃ pname plugin_class,
    default ∅ (h !! r) !! "name" = Some pname
    ∧ get_plugin env pname = Some plugin_class
    ∧ new_plugin plugin_class (delete "name" (default ∅ (h !! r))) = Ok plugin.


(** The keyword arguments a step of the configuration stands for: a
    bare string is the name and the command. *)
Definition step_kwargs (sconf : StepConf) : gmap string Py.value :=
  match sconf with
  | StepStr s => {[ "name" := Py.VStr s; "command" := Py.VStr s ]}
  | StepDict d => d
  end.

(** The counter of the output buffer is the length of the text in the
    buffer, and that is no more than the threshold. *)
Definition buffer_ok (b : Builder) : Prop :=
  _current_step_output_buff_len b = Py.len (Py.join "" (_step_output_buff b))
  ∧ (_current_step_output_buff_len b ≤ STEP_OUTPUT_BUFF_LEN b)%nat.

(** ** Sample builds *)

(** An environment where what a command does depends on the command
    alone, with the two plugins of plugins.py registered. *)
Definition env_of (runs : string → ShellRun) (file_exists : string → bool) : Env :=
  {| shell := λ _ call, runs (sc_cmd call);
     path_exists := λ _ path, file_exists path;
     uuid4 := λ n, "uuid-" ++ Py.str_int (Z.of_nat n);
     abspath := λ path, "/var/slave/" ++ path;
     PLUGINS_DATA_DIR := None;
     get_plugin := λ pname,
       match pname with
       | Py.VStr "python-venv" => Some PythonVenvPluginClass
       | Py.VStr "apt-install" => Some AptInstallPluginClass
       | _ => None
       end |}.

(** A linter that fails, a test suite that fails, a command that prints
    two lines, a package count, and silence otherwise. *)
Definition sample_runs (cmd : string) : ShellRun :=
  if String.eqb cmd "lint" then
    mkShellRun ["E501 line too long" ++ newline] (ExecCmdErr "E501 line too long")
  else if String.eqb cmd "test" then
    mkShellRun ["1 failed" ++ newline] (ExecCmdErr "1 failed")
  else if String.eqb cmd "seq 2" then
    mkShellRun ["1" ++ newline; "2" ++ newline] (Returned ("1" ++ newline ++ "2"))
  else if String.eqb cmd "sleep 9" then
    mkShellRun [] TimedOut
  else if String.eqb cmd (sc_cmd (dpkg_probe ["git"; "curl"])) then
    mkShellRun [] (Returned "2")
  else mkShellRun [] (Returned "").

Definition sample_env : Env := env_of sample_runs (λ _, false).

(** The same, with a virtualenv in place. *)
Definition venv_env : Env :=
  env_of sample_runs (String.eqb "/var/slave/src-b1/venv-python3/bin/python").

(** [lint] turns its failure into a warning; [test] does not. *)
Definition lint_test_conf : BuilderConf :=
  {| conf_name := Some "b1";
     conf_plugins := None;
     conf_steps :=
       Some [StepDict {[ "name" := Py.VStr "lint"; "command" := Py.VStr "lint";
                         "warning_on_fail" := Py.VBool true ]};
             StepStr "test"] |}.


Definition seq_conf : BuilderConf :=
  {| conf_name := Some "b1";
     conf_plugins := None;
     conf_steps := Some [StepStr "seq 2"] |}.

Definition quiet_conf : BuilderConf :=
  {| conf_name := Some "b1";
     conf_plugins := None;
     conf_steps := Some [StepStr "true"] |}.

(** A configuration with the apt-install plugin; its dict is the object
    0 of the heap [apt_heap]. *)
Definition apt_conf : BuilderConf :=
  {| conf_name := Some "b1";
     conf_plugins := Some [0];
     conf_steps := Some [StepStr "test"] |}.

Definition apt_heap : Heap :=
  {[ 0 := {[ "name" := Py.VStr "apt-install";
             "packages" := Py.VList ["git"; "curl"] ]} ]}.

(** A builder without steps, to hold the state of a step run alone. *)
Definition idle_builder : Builder :=
  {| conf := quiet_conf;
     builder_name := "b1";
     workdir := "src";
     plugins := [];
     steps := [];
     platform := "linux-generic";
     remove_env := true;
     envvars := ∅;
     STEP_OUTPUT_BUFF_LEN := 0;
     _step_output_buff := [];
     _current_step_output_index := None;
     _current_step_output_buff_len := 0 |}.

(** The run state in which a builder starts its first build. *)
Definition fresh (b : Builder) : RunState := mkRunState b [] [] 0.

(** The builder of class attribute [T] made from [bconf], if the
    construction goes through. *)
Definition built (env : Env) (T : nat) (bconf : BuilderConf) (h : Heap) : result Builder :=
  (Builder__init__ env T bconf "src" "linux-generic" true ∅ h).1.

(** The sample commands, on a machine where the workdir cannot be
    copied. *)
Definition no_copy_runs (cmd : string) : ShellRun :=
  if String.eqb cmd "cp -R src/* /var/slave/src-b1" then
    mkShellRun [] (ExecCmdErr "cp: cannot stat 'src/*': No such file or directory")
  else sample_runs cmd.

Definition no_copy_env : Env := env_of no_copy_runs (λ _, false).


(** The builder made from [bconf] without [remove_env]. *)
Definition kept (env : Env) (T : nat) (bconf : BuilderConf) (h : Heap) : result Builder :=
  (Builder__init__ env T bconf "src" "linux-generic" false ∅ h).1.



(** The sample commands, on a machine without [dpkg]. *)
Definition no_dpkg_runs (cmd : string) : ShellRun :=
  if String.eqb cmd (sc_cmd (dpkg_probe ["vim"])) then
    mkShellRun [] (ExecCmdErr "sudo: dpkg: command not found")
  else sample_runs cmd.

Definition no_dpkg_env : Env := env_of no_dpkg_runs (λ _, false).



(** The sample commands, on a machine that cannot reach the package
    servers. *)
Definition no_network_runs (cmd : string) : ShellRun :=
  if String.eqb cmd "sudo apt-get update" then
    mkShellRun [] (ExecCmdErr "Could not resolve 'deb.debian.org'")
  else sample_runs cmd.

Definition no_network_env : Env := env_of no_network_runs (λ _, false).

(** ** Facts about the builtins *)

Section Strip.

Variable c : ascii.

Lemma lstrip_not_startswith s : Py.startswith_char c (Py.lstrip c s) = false.
Proof.
  induction s as [|a s IH]; simpl; [reflexivity|].
  destruct (Ascii.eqb a c) eqn:E; [exact IH|].
  simpl. exact E.
Qed.

Lemma rstrip_not_endswith s : Py.endswith_char c (Py.rstrip c s) = false.
Proof.
  induction s as [|a s IH]; simpl; [reflexivity|].
  destruct (Py.rstrip c s) as [|b r] eqn:E.
  - destruct (Ascii.eqb a c) eqn:Ea; simpl; [reflexivity|exact Ea].
  - exact IH.
Qed.

Lemma rstrip_empty_iff s : Py.rstrip c s = "" ↔ only_char c s = true.
Proof.
  induction s as [|a s IH]; simpl; [tauto|].
  destruct (Py.rstrip c s) as [|b r] eqn:E.
  - destruct (Ascii.eqb a c); simpl.
    + split; intros _; [apply IH|]; reflexivity.
    + split; discriminate.
  - split; [discriminate|].
    intros H. apply andb_prop in H as [_ H]. apply IH in H. discriminate.
Qed.

Lemma rstrip_keeps_start s :
  Py.startswith_char c s = false → Py.startswith_char c (Py.rstrip c s) = false.
Proof.
  destruct s as [|a s]; simpl; [reflexivity|].
  intros Ha. destruct (Py.rstrip c s); [rewrite Ha|]; simpl; exact Ha.
Qed.

Lemma lstrip_only_char s : only_char c (Py.lstrip c s) = true ↔ only_char c s = true.
Proof.
  induction s as [|a s IH]; simpl; [tauto|].
  destruct (Ascii.eqb a c) eqn:E; simpl; [exact IH|].
  rewrite E. simpl. tauto.
Qed.

Lemma strip_empty_iff s : Py.strip c s = "" ↔ only_char c s = true.
Proof. unfold Py.strip. rewrite rstrip_empty_iff. apply lstrip_only_char. Qed.

Lemma strip_not_startswith s : Py.startswith_char c (Py.strip c s) = false.
Proof. apply rstrip_keeps_start, lstrip_not_startswith. Qed.

Lemma strip_not_endswith s : Py.endswith_char c (Py.strip c s) = false.
Proof. apply rstrip_not_endswith. Qed.

End Strip.

(** ** The command of a step *)

(** C6, as the spec states it, does not hold: a command made of spaces
    only is accepted by the constructor and leaves the empty command. *)
Lemma BuildStep_blank_command_accepted :
  command (new_BuildStep "blank" "   " false 3600 false) = "".
Proof. reflexivity. Qed.

(** C6, amended: after construction the command of a step is the given
    string with its leading and trailing spaces stripped; it neither
    starts nor ends with a space, and it is empty exactly when the given
    string holds nothing but spaces. *)
Theorem BuildStep_command_is_stripped (cls : StepClass) (name cmd : string)
    (wof : bool) (t : Z) (sof : bool) :
  let s := BuildStep__init__ cls name cmd wof t sof in
  command s = Py.strip " " cmd
  ∧ Py.startswith_char " " (command s) = false
  ∧ Py.endswith_char " " (command s) = false
  ∧ (command s = "" ↔ only_char " " cmd = true).
Proof.
  simpl. split; [reflexivity|]. split; [apply strip_not_startswith|].
  split; [apply strip_not_endswith|apply strip_empty_iff].
Qed.

(** ** Running effects *)

Lemma bind_run {St A B} (m : Eff St A) (f : A → Eff St B) (st : St) :
  (m ≫= f) st =
    match m st with
    | (Ok a, st') => f a st'
    | (Raise e, st') => (Raise e, st')
    end.
Proof. reflexivity. Qed.

Lemma bind_raise {St A B} (m : Eff St A) (f : A → Eff St B) (st st' : St) (e : pyexc) :
  m st = (Raise e, st') → (m ≫= f) st = (Raise e, st').
Proof. intros H. rewrite bind_run, H. reflexivity. Qed.

Ltac eff_unfold :=
  unfold mbind, mret, Eff_bind, Eff_ret, get_state, modify_state, raise,
    get_self, set_self, in_world, lift_result in *.

(** ** The shell *)

Lemma exec_cmd_run env cmd cwd t out_fn envvars w :
  let call := mkShellCall cmd cwd t envvars in
  let run := shell env (shell_calls w) call in
  exec_cmd env cmd cwd t out_fn envvars w =
    match feed out_fn (run_lines run) (record_call call w) with
    | (Ok _, w1) =>
        (match run_outcome run with
         | Returned o => Ok o
         | ExecCmdErr o => Raise (ExecCmdError o)
         | TimedOut => Raise TimeoutError
         | Cancelled => Raise CancelledError
         end, w1)
    | (Raise e, w1) => (Raise e, w1)
    end.
Proof.
  intros call run. unfold exec_cmd. eff_unfold. simpl.
  fold call. fold run.
  destruct (feed _ _ _) as [[[]|e] w1]; [|reflexivity].
  destruct (run_outcome run); reflexivity.
Qed.

#[global] Arguments exec_cmd : simpl never.

(** ** [get_command] *)

Lemma get_command_inherited env s w :
  (∀ p c, step_class s ≠ CAptInstallStep p c) →
  get_command env (s, w) = (Ok (command s), (s, w)).
Proof.
  intros H. unfold get_command, BuildStep_get_command. eff_unfold. simpl.
  destruct (step_class s) eqn:E; try reflexivity.
  exfalso. eapply H. reflexivity.
Qed.

Lemma get_command_cached env s p c w :
  step_class s = CAptInstallStep p (Some c) → c ≠ "" →
  get_command env (s, w) = (Ok c, (s, w)).
Proof.
  intros E Hc. unfold get_command, AptInstallStep_get_command. eff_unfold. simpl.
  rewrite E. simpl.
  destruct (String.eqb c "") eqn:Eq; [|reflexivity].
  apply String.eqb_eq in Eq. contradiction.
Qed.

Lemma join_pair_not_empty a b : a ≠ "" → Py.join " " [a; b] ≠ "".
Proof. destruct a; [congruence|]. discriminate. Qed.

Lemma install_cmd_not_empty p : install_cmd p ≠ "".
Proof. apply join_pair_not_empty. discriminate. Qed.

Lemma reconf_cmd_not_empty p : reconf_cmd p ≠ "".
Proof. apply join_pair_not_empty. discriminate. Qed.

(** The first [get_command] of an [AptInstallStep]: one probe, then the
    choice, stored on the step. *)
Lemma get_command_probe env s p c w :
  step_class s = CAptInstallStep p c → is_set c = false →
  get_command env (s, w) =
    match run_outcome (shell env (shell_calls w) (dpkg_probe p)) with
    | Returned out =>
        match Py.int out with
        | Some n =>
            let cmd := if (n =? Z.of_nat (length p))%Z then reconf_cmd p else install_cmd p in
            (Ok cmd,
             ({| step_class := CAptInstallStep p (Some cmd);
                 name := name s;
                 command := cmd;
                 warning_on_fail := warning_on_fail s;
                 timeout := timeout s;
                 stop_on_fail := stop_on_fail s |},
              record_call (dpkg_probe p) w))
        | None => (Raise ValueError, (s, record_call (dpkg_probe p) w))
        end
    | ExecCmdErr out => (Raise (ExecCmdError out), (s, record_call (dpkg_probe p) w))
    | TimedOut => (Raise TimeoutError, (s, record_call (dpkg_probe p) w))
    | Cancelled => (Raise CancelledError, (s, record_call (dpkg_probe p) w))
    end.
Proof.
  intros E Hc.
  unfold get_command, AptInstallStep_get_command, AptInstallStep__is_everything_installed.
  eff_unfold. simpl. rewrite E, Hc.
  rewrite exec_cmd_run. fold (dpkg_probe p). simpl.
  destruct (run_outcome _) as [out|out| |]; try reflexivity.
  destruct (Py.int out) as [n|]; [|reflexivity].
  simpl. destruct (n =? _)%Z; reflexivity.
Qed.

(** Once [get_command] has answered, the command is settled, and all it
    did to the run state is a possible probe. *)
Lemma get_command_answer env s w cmd s' w' :
  get_command env (s, w) = (Ok cmd, (s', w')) →
  settled env s' cmd
  ∧ name s' = name s
  ∧ stop_on_fail s' = stop_on_fail s
  ∧ self w' = self w ∧ sent w' = sent w ∧ uuid_calls w' = uuid_calls w
  ∧ ∃ new, shell_calls w' = (new ++ shell_calls w)%list.
Proof.
  intros H.
  destruct (step_class s) as [| | |p c] eqn:E.
  1-3: rewrite get_command_inherited in H by (intros ? ?; congruence);
       injection H as <- <- <-; repeat split; try reflexivity;
       [intros w2; apply get_command_inherited; intros ? ?; congruence
       |exists []; reflexivity].
  destruct (is_set c) eqn:Hc.
  - destruct c as [c|]; [|discriminate]. simpl in Hc.
    assert (c ≠ "") as Hne.
    { intros ->. discriminate. }
    rewrite (get_command_cached _ _ _ _ _ E Hne) in H.
    injection H as <- <- <-. repeat split; try reflexivity.
    + intros w2. eapply get_command_cached; eassumption.
    + exists []. reflexivity.
  - rewrite (get_command_probe _ _ _ _ _ E Hc) in H.
    destruct (run_outcome _) as [out|out| |]; try discriminate.
    destruct (Py.int out) as [n|]; [|discriminate].
    injection H as <- <- <-. repeat split; try reflexivity.
    + intros w2. eapply get_command_cached; [reflexivity|].
      destruct (n =? _)%Z; [apply reconf_cmd_not_empty|apply install_cmd_not_empty].
    + exists [dpkg_probe p]. reflexivity.
Qed.

Lemma get_command_raise env s w e s' w' :
  get_command env (s, w) = (Raise e, (s', w')) →
  s' = s ∧ self w' = self w ∧ sent w' = sent w ∧ uuid_calls w' = uuid_calls w
  ∧ ∃ new, shell_calls w' = (new ++ shell_calls w)%list.
Proof.
  intros H.
  destruct (step_class s) as [| | |p c] eqn:E.
  1-3: rewrite get_command_inherited in H by (intros ? ?; congruence); discriminate.
  destruct (is_set c) eqn:Hc.
  - destruct c as [c|]; [|discriminate]. simpl in Hc.
    assert (c ≠ "") as Hne.
    { intros ->. discriminate. }
    rewrite (get_command_cached _ _ _ _ _ E Hne) in H. discriminate.
  - rewrite (get_command_probe _ _ _ _ _ E Hc) in H.
    destruct (run_outcome _) as [out|out| |]; [destruct (Py.int out) as [n|]|..];
      try discriminate; injection H as <- <- <-; repeat split; try reflexivity;
      exists [dpkg_probe p]; reflexivity.
Qed.

(** ** The apt-install step *)

(** C8: the first [get_command] of an [AptInstallStep] runs the dpkg count
    pipeline once and answers the reconfigure command when the count is
    the number of packages, the install command otherwise; the answer is
    stored on the step, and every later call answers it again without
    running anything. *)
Theorem AptInstallStep_get_command_probes_once (env : Env) (packages : list string)
    (t : Z) (w : RunState) (out : string) (n : Z) :
  let s := AptInstallStep__init__ packages t in
  let pkgs := Py.join " " packages in
  let cmd := if (n =? Z.of_nat (length packages))%Z
             then "sudo dpkg-reconfigure " ++ pkgs
             else "sudo apt-get install -y " ++ pkgs in
  run_outcome (shell env (shell_calls w) (dpkg_probe packages)) = Returned out →
  Py.int out = Some n →
  ∃ s',
    get_command env (s, w) = (Ok cmd, (s', record_call (dpkg_probe packages) w))
    ∧ command s' = cmd
    ∧ ∀ w2, get_command env (s', w2) = (Ok cmd, (s', w2)).
Proof.
  intros s pkgs cmd Hrun Hint.
  pose proof (get_command_probe env s packages None w eq_refl eq_refl) as H.
  rewrite Hrun, Hint in H. cbv zeta in H.
  eexists. split; [|split].
  - rewrite H. reflexivity.
  - reflexivity.
  - apply (get_command_answer _ _ _ _ _ _ H).
Qed.

Lemma AptInstallStep_get_command_probes_once_witness :
  let packages := ["git"; "curl"] in
  let s := AptInstallStep__init__ packages 600 in
  let w := fresh idle_builder in
  run_outcome (shell sample_env (shell_calls w) (dpkg_probe packages)) = Returned "2"
  ∧ Py.int "2" = Some 2%Z
  ∧ ∃ s',
      get_command sample_env (s, w) =
        (Ok "sudo dpkg-reconfigure git curl", (s', record_call (dpkg_probe packages) w))
      ∧ command s' = "sudo dpkg-reconfigure git curl"
      ∧ ∀ w2, get_command sample_env (s', w2) = (Ok "sudo dpkg-reconfigure git curl", (s', w2)).
Proof.
  intros packages s w. split; [reflexivity|]. split; [reflexivity|].
  apply (AptInstallStep_get_command_probes_once sample_env packages 600 w "2" 2);
    reflexivity.
Defined.


(** ** [execute] *)

(** [BuildStep.execute] on a step whose command is settled: one shell
    call, the lines fed to [out_fn], and the answer by the outcome. *)
Lemma BuildStep_execute_settled env s cmd cwd out_fn lss lso envvars w w1 :
  let call := mkShellCall cmd cwd (timeout s) envvars in
  let run := shell env (shell_calls w) call in
  settled env s cmd →
  feed out_fn (run_lines run) (record_call call w) = (Ok tt, w1) →
  BuildStep_execute env cwd out_fn lss lso envvars (s, w) =
    (Ok (outcome_status s (run_outcome run)), (s, w1)).
Proof.
  intros call run Hset Hfeed.
  unfold BuildStep_execute, try_except, BuildStep_exec_cmd.
  eff_unfold. rewrite Hset. simpl.
  rewrite exec_cmd_run. fold call. fold run. rewrite Hfeed.
  destruct (run_outcome run) as [out|out| |]; simpl;
    destruct (warning_on_fail s); reflexivity.
Qed.

(** ** The step of the python-venv plugin *)

(** C7: when [<venv_dir>/bin/python] exists under [cwd], the create-venv
    step answers success with the output [venv exists. Skipping...] and
    leaves the step and the run state as they were: no shell call is made
    and running it again does the same. *)
Theorem PythonCreateVenvStep_execute_skips (env : Env)
    (data_dir venv_dir pyversion cwd : string)
    (out_fn : option (nat → string → Run unit))
    (lss : option Status) (lso : option StepStatus)
    (envvars : gmap string string) (w : RunState) :
  let s := PythonCreateVenvStep__init__ data_dir venv_dir pyversion in
  path_exists env (shell_calls w)
    (Py.path_join cwd (Py.path_join venv_dir "bin/python")) = true →
  execute env cwd out_fn lss lso envvars (s, w) =
    (Ok (mkStepStatus success "venv exists. Skipping..."), (s, w)).
Proof.
  intros s Hex. unfold execute, PythonCreateVenvStep_execute.
  eff_unfold. simpl.
  change (Py.path_join "bin" "python") with "bin/python".
  rewrite Hex. destruct w; reflexivity.
Qed.

Lemma PythonCreateVenvStep_execute_skips_witness :
  let s := PythonCreateVenvStep__init__ "../python-venv" "venv-python3" "python3" in
  let w := fresh idle_builder in
  path_exists venv_env (shell_calls w)
    (Py.path_join "/var/slave/src-b1" (Py.path_join "venv-python3" "bin/python")) = true
  ∧ execute venv_env "/var/slave/src-b1" None None None ∅ (s, w) =
      (Ok (mkStepStatus success "venv exists. Skipping..."), (s, w)).
Proof.
  intros s w. split; [reflexivity|].
  apply (PythonCreateVenvStep_execute_skips venv_env "../python-venv" "venv-python3"
           "python3" "/var/slave/src-b1" None None None ∅ w).
  reflexivity.
Defined.


(** ** Classification of a step *)




(** ** Loading the plugins *)

(** A dict without the key [name]. *)
Lemma nameless_after_delete (h : Heap) (r r' : nat) :
  default ∅ (h !! r') !! "name" = None ∨ r' = r →
  default ∅ (<[r := delete "name" (default ∅ (h !! r))]> h !! r') !! "name" = None.
Proof.
  intros H. destruct (decide (r' = r)) as [->|Hne].
  - rewrite lookup_insert_eq. simpl. apply lookup_delete_eq.
  - rewrite lookup_insert_ne by congruence. destruct H; [assumption|contradiction].
Qed.

(** One pass of the loop that went through: the name was there, it is
    deleted from the dict, and the loop goes on with the rest. *)
Lemma _load_plugins_loop_pass env r rest plist h ps h' :
  _load_plugins_loop env (r :: rest) plist h = (Ok ps, h') →
  ∃ plugin,
    _load_plugins_loop env rest (plist ++ [plugin])
      (<[r := delete "name" (default ∅ (h !! r))]> h) = (Ok ps, h').
Proof.
  cbn [_load_plugins_loop]. unfold try_except, deref, getitem, delitem. eff_unfold.
  destruct (default ∅ (h !! r) !! "name") as [v|] eqn:Hname; simpl; [|discriminate].
  destruct (get_plugin env v) as [cls|]; simpl; [|discriminate].
  rewrite Hname. simpl. rewrite lookup_insert_eq. simpl.
  destruct (new_plugin cls _) as [plugin|e]; [|discriminate].
  intros H. exists plugin. exact H.
Qed.

(** A dict without name stops the loop with [BadPluginConfig]. *)
Lemma _load_plugins_loop_nameless env r rest plist h :
  default ∅ (h !! r) !! "name" = None →
  _load_plugins_loop env (r :: rest) plist h =
    (Raise (BadPluginConfig (default ∅ (h !! r))), h).
Proof.
  intros Hname. cbn [_load_plugins_loop].
  unfold try_except, deref, getitem. eff_unfold. simpl.
  rewrite Hname. reflexivity.
Qed.

Lemma _load_plugins_loop_deletes env l : ∀ plist h ps h',
  _load_plugins_loop env l plist h = (Ok ps, h') →
  ∀ r, default ∅ (h !! r) !! "name" = None ∨ r ∈ l →
       default ∅ (h' !! r) !! "name" = None.
Proof.
  induction l as [|r0 rest IH]; intros plist h ps h' H r Hr.
  - injection H as _ <-. destruct Hr as [Hr|Hr]; [exact Hr|].
    apply elem_of_nil in Hr. contradiction.
  - apply _load_plugins_loop_pass in H as [plugin H].
    eapply IH; [exact H|].
    destruct Hr as [Hr|Hr].
    + left. apply nameless_after_delete. left. exact Hr.
    + apply elem_of_cons in Hr as [->|Hr]; [|right; exact Hr].
      left. apply nameless_after_delete. right. reflexivity.
Qed.

Lemma Builder__init__ok env T bconf workdir platform remove_env envvars h b h' :
  Builder__init__ env T bconf workdir platform remove_env envvars h = (Ok b, h') →
  is_Some (conf_name bconf)
  ∧ ∃ ps, Builder__load_plugins env bconf h = (Ok ps, h').
Proof.
  unfold Builder__init__.
  destruct (conf_name bconf) as [name|]; [|discriminate].
  rewrite bind_run.
  destruct (Builder__load_plugins env bconf h) as [[ps|e] h1]; [|discriminate].
  rewrite bind_run. unfold lift_result.
  destruct (Builder__get_steps env bconf ps); [|discriminate].
  intros H. injection H as _ <-. split; [eexists; reflexivity|].
  exists ps. reflexivity.
Qed.

(** ** Construction changes the configuration *)

(** C9: a construction that went through has deleted the key [name] from
    every dict of [bconf['plugins']]; when that list is not empty, a
    second construction from the same configuration raises
    [BadPluginConfig]. *)
Theorem Builder_second_construction_raises (env : Env) (T : nat) (bconf : BuilderConf)
    (workdir platform : string) (remove_env : bool) (envvars : gmap string string)
    (h h' : Heap) (b : Builder) :
  Builder__init__ env T bconf workdir platform remove_env envvars h = (Ok b, h') →
  default [] (conf_plugins bconf) ≠ [] →
  (∀ r, r ∈ default [] (conf_plugins bconf) → default ∅ (h' !! r) !! "name" = None)
  ∧ ∀ T2 workdir2 platform2 remove_env2 envvars2,
      ∃ pdict,
        Builder__init__ env T2 bconf workdir2 platform2 remove_env2 envvars2 h' =
          (Raise (BadPluginConfig pdict), h').
Proof.
  intros Hinit Hne.
  apply Builder__init__ok in Hinit as [[name Hname] [ps Hload]].
  assert (∀ r, r ∈ default [] (conf_plugins bconf) →
               default ∅ (h' !! r) !! "name" = None) as Hdel.
  { intros r Hr. unfold Builder__load_plugins in Hload.
    eapply _load_plugins_loop_deletes; [exact Hload|]. right. exact Hr. }
  split; [exact Hdel|].
  intros T2 workdir2 platform2 remove_env2 envvars2.
  unfold Builder__init__. rewrite Hname. unfold Builder__load_plugins.
  destruct (default [] (conf_plugins bconf)) as [|r rest]; [contradiction|].
  exists (default ∅ (h' !! r)).
  erewrite bind_raise; [reflexivity|].
  apply _load_plugins_loop_nameless, Hdel. left.
Qed.

Lemma Builder_second_construction_raises_witness :
  ∃ b h',
    Builder__init__ sample_env 0 apt_conf "src" "linux-generic" true ∅ apt_heap = (Ok b, h')
    ∧ default [] (conf_plugins apt_conf) ≠ []
    ∧ (∀ r, r ∈ default [] (conf_plugins apt_conf) → default ∅ (h' !! r) !! "name" = None)
    ∧ ∀ T2 workdir2 platform2 remove_env2 envvars2,
        ∃ pdict,
          Builder__init__ sample_env T2 apt_conf workdir2 platform2 remove_env2 envvars2 h' =
            (Raise (BadPluginConfig pdict), h').
Proof.
  eexists _, _.
  match goal with |- ?A ∧ _ => assert A as H by (vm_compute; reflexivity) end.
  split; [exact H|].
  assert (default [] (conf_plugins apt_conf) ≠ []) as Hne by discriminate.
  split; [exact Hne|].
  exact (Builder_second_construction_raises sample_env 0 apt_conf "src" "linux-generic"
           true ∅ apt_heap _ _ H Hne).
Defined.


(** ** The output buffer *)

Lemma with_output_buff_same b :
  with_output_buff b (_step_output_buff b) (_current_step_output_index b)
    (_current_step_output_buff_len b) = b.
Proof. destruct b; reflexivity. Qed.

Lemma flush_run uuid w :
  Builder__flush_step_output_buff uuid w =
    (Ok tt,
     mkRunState
       (with_output_buff (self w) []
          (Some (next_index (_current_step_output_index (self w)))) 0)
       (sent w ++ [step_output_info uuid
                     (next_index (_current_step_output_index (self w)))
                     (Py.strip "010" (Py.join "" (_step_output_buff (self w))))])
       (shell_calls w) (uuid_calls w)).
Proof. reflexivity. Qed.

Lemma send_step_output_run info k line w :
  Builder__send_step_output_info info k line w =
    let b := self w in
    let buff := (_step_output_buff b ++ [line])%list in
    let buff_len := _current_step_output_buff_len b + Py.len line in
    if (STEP_OUTPUT_BUFF_LEN b <? buff_len)%nat
    then
      (Ok tt,
       mkRunState
         (with_output_buff b [] (Some (next_index (_current_step_output_index b))) 0)
         (sent w ++ [step_output_info (si_uuid info)
                       (next_index (_current_step_output_index b))
                       (Py.strip "010" (Py.join "" buff))])
         (shell_calls w) (uuid_calls w))
    else
      (Ok tt,
       mkRunState (with_output_buff b buff (_current_step_output_index b) buff_len)
         (sent w) (shell_calls w) (uuid_calls w)).
Proof.
  unfold Builder__send_step_output_info, get_builder, set_builder. eff_unfold.
  cbn [self sent shell_calls uuid_calls with_output_buff STEP_OUTPUT_BUFF_LEN
       _current_step_output_buff_len].
  destruct (_ <? _)%nat; reflexivity.
Qed.

Lemma index_after_next index n :
  index_after (Some (next_index index)) n = index_after index (S n).
Proof.
  destruct n as [|n]; simpl; f_equal; lia.
Qed.

(** Feeding lines to the [out_fn] of the builder sends the batches that
    [stream] cuts and leaves the rest in the buffer. *)
Lemma feed_lines_stream info lines : ∀ k w,
  let b := self w in
  let cut := stream (STEP_OUTPUT_BUFF_LEN b) (_step_output_buff b)
               (_current_step_output_buff_len b) lines in
  feed_lines (Builder__send_step_output_info info) k lines w =
    (Ok tt,
     mkRunState
       (with_output_buff b cut.2.1
          (index_after (_current_step_output_index b) (length cut.1)) cut.2.2)
       (sent w ++ output_msgs (si_uuid info)
                    (next_index (_current_step_output_index b)) cut.1)
       (shell_calls w) (uuid_calls w)).
Proof.
  induction lines as [|line rest IH]; intros k w.
  - simpl. rewrite with_output_buff_same, app_nil_r. destruct w; reflexivity.
  - cbn [feed_lines]. rewrite bind_run, send_step_output_run. cbv zeta.
    cbn [stream].
    destruct (_ <? _)%nat.
    + rewrite IH.
      cbn [self sent shell_calls uuid_calls with_output_buff STEP_OUTPUT_BUFF_LEN
           _step_output_buff _current_step_output_index
           _current_step_output_buff_len fst snd length output_msgs].
      rewrite index_after_next, <- app_assoc. cbn [app].
      replace (next_index (Some (next_index (_current_step_output_index (self w)))))
        with (S (next_index (_current_step_output_index (self w))))
        by (simpl; lia).
      reflexivity.
    + rewrite IH.
      cbn [self sent shell_calls uuid_calls with_output_buff STEP_OUTPUT_BUFF_LEN
           _step_output_buff _current_step_output_index
           _current_step_output_buff_len].
      reflexivity.
Qed.

Lemma output_msgs_app uuid buffs buffs' : ∀ start,
  output_msgs uuid start (buffs ++ buffs') =
    (output_msgs uuid start buffs ++ output_msgs uuid (start + length buffs) buffs')%list.
Proof.
  induction buffs as [|buff rest IH]; intros start; simpl.
  - rewrite Nat.add_0_r. reflexivity.
  - rewrite IH. do 2 f_equal. f_equal. lia.
Qed.

Lemma output_indexes_output_msgs uuid buffs : ∀ start,
  output_indexes (output_msgs uuid start buffs) = seq start (length buffs).
Proof.
  induction buffs as [|buff rest IH]; intros start; simpl; [reflexivity|].
  unfold output_indexes in *. rewrite IH. reflexivity.
Qed.


(** ** One pass of the build loop *)

(** [execute] with the [out_fn] of the builder, on a step whose command
    is settled: it answers, the step is as before, and the lines of the
    command, if one was run, went through the buffer. *)
Lemma execute_streams env s cmd cwd info lss lso envvars w :
  settled env s cmd →
  ∃ out lines new,
    let b := self w in
    let cut := stream (STEP_OUTPUT_BUFF_LEN b) (_step_output_buff b)
                 (_current_step_output_buff_len b) lines in
    execute env cwd (Some (Builder__send_step_output_info info)) lss lso envvars (s, w) =
      (Ok out,
       (s, mkRunState
             (with_output_buff b cut.2.1
                (index_after (_current_step_output_index b) (length cut.1)) cut.2.2)
             (sent w ++ output_msgs (si_uuid info)
                          (next_index (_current_step_output_index b)) cut.1)
             (new ++ shell_calls w) (uuid_calls w)))
    ∧ (lines = []
       ∨ ∃ call, new = [call] ∧ sc_cmd call = cmd
                 ∧ lines = run_lines (shell env (shell_calls w) call)).
Proof.
  intros Hset.
  assert (∃ out lines new,
    let b := self w in
    let cut := stream (STEP_OUTPUT_BUFF_LEN b) (_step_output_buff b)
                 (_current_step_output_buff_len b) lines in
    BuildStep_execute env cwd (Some (Builder__send_step_output_info info)) lss lso
        envvars (s, w) =
      (Ok out,
       (s, mkRunState
             (with_output_buff b cut.2.1
                (index_after (_current_step_output_index b) (length cut.1)) cut.2.2)
             (sent w ++ output_msgs (si_uuid info)
                          (next_index (_current_step_output_index b)) cut.1)
             (new ++ shell_calls w) (uuid_calls w)))
    ∧ (lines = []
       ∨ ∃ call, new = [call] ∧ sc_cmd call = cmd
                 ∧ lines = run_lines (shell env (shell_calls w) call)))
    as Hbase.
  { set (call := mkShellCall cmd cwd (timeout s) envvars).
    set (run := shell env (shell_calls w) call).
    exists (outcome_status s (run_outcome run)), (run_lines run), [call].
    split; [|right; exists call; repeat split; reflexivity].
    eapply BuildStep_execute_settled; [exact Hset|].
    cbn [feed]. apply (feed_lines_stream info (run_lines run) 0 (record_call call w)). }
  unfold execute. rewrite bind_run. unfold get_self. cbn [fst].
  destruct (step_class s) as [|data_dir venv_dir pyversion| |p c]; try exact Hbase.
  unfold PythonCreateVenvStep_execute. rewrite bind_run.
  unfold in_world, get_state. cbn [fst snd].
  destruct (path_exists env (shell_calls w) _); [|exact Hbase].
  exists (mkStepStatus success "venv exists. Skipping..."), [], [].
  split; [|left; reflexivity].
  cbn [stream fst snd length index_after output_msgs app].
  rewrite with_output_buff_same, app_nil_r. destruct w; reflexivity.
Qed.

Lemma new_uuid_run env w :
  new_uuid env w =
    (Ok (uuid4 env (uuid_calls w)),
     mkRunState (self w) (sent w) (shell_calls w) (S (uuid_calls w))).
Proof. reflexivity. Qed.

Lemma send_info_run msg w :
  send_info msg w =
    (Ok tt, mkRunState (self w) (sent w ++ [msg]) (shell_calls w) (uuid_calls w)).
Proof. reflexivity. Qed.

Lemma get_env_vars_run env w : ∃ envvars, Builder__get_env_vars env w = (Ok envvars, w).
Proof. eexists. reflexivity. Qed.

Lemma get_tmp_dir_run env w : ∃ cwd, Builder__get_tmp_dir env w = (Ok cwd, w).
Proof. eexists. reflexivity. Qed.

Lemma batches_index T lines :
  next_index (index_after None (length (stream T [] 0 lines).1)) =
    length (stream T [] 0 lines).1.
Proof. destruct (length _); simpl; lia. Qed.

(** One pass of the loop: it raises only when [get_command] does, before
    anything is sent; else it sends the trace of the step. *)
Lemma _do_build_step_pass env index step v w r w' :
  _do_build_step env index step v w = (r, w') →
  STEP_OUTPUT_BUFF_LEN (self w') = STEP_OUTPUT_BUFF_LEN (self w)
  ∧ length (steps (self w')) = length (steps (self w))
  ∧ match r with
    | Raise e =>
        sent w' = sent w
        ∧ (∃ new, shell_calls w' = (new ++ shell_calls w)%list)
        ∧ ∃ w0 s1 w1, get_command env (step, w0) = (Raise e, (s1, w1))
    | Ok (v', go) =>
        ∃ run new,
          starts index step run
          ∧ si_uuid (sr_info run) = uuid4 env (uuid_calls w)
          ∧ si_last_step_status (sr_info run) = last_step_status v
          ∧ sent w' = (sent w ++ run_trace (STEP_OUTPUT_BUFF_LEN (self w)) run)%list
          ∧ v' = after_run v run
          ∧ go = negb (stops (run_status run) (stop_on_fail step))
          ∧ uuid_calls w' = S (uuid_calls w)
          ∧ shell_calls w' = (new ++ shell_calls w)%list
          ∧ lines_from env new run
    end.
Proof.
  unfold _do_build_step. rewrite bind_run.
  change (Builder__clear_step_output_buff w) with
    (Ok tt, mkRunState (with_output_buff (self w) [] None 0) (sent w) (shell_calls w)
              (uuid_calls w)).
  cbv iota beta. rewrite bind_run. unfold call_step at 1.
  destruct (get_command env _) as [[cmd|e] [step1 w1]] eqn:Hgc.
  2: { pose proof Hgc as Hraise.
       apply get_command_raise in Hgc as (_ & Hself & Hsent & _ & Hnew).
       cbn [self sent shell_calls] in *. intros H. injection H as <- <-.
       cbn [self sent shell_calls with_step steps STEP_OUTPUT_BUFF_LEN].
       rewrite Hself, length_insert. repeat split; try assumption.
       eexists _, _, _. exact Hraise. }
  apply get_command_answer in Hgc
    as (Hset & Hname & Hsof & Hself & Hsent & Huuid & new0 & Hcalls).
  cbn [self sent shell_calls uuid_calls] in *.
  rewrite bind_run, new_uuid_run. cbv iota beta.
  rewrite bind_run, send_info_run. cbv iota beta.
  cbn [self sent shell_calls uuid_calls].
  rewrite Hname, Hsent, Huuid, Hself, Hcalls.
  set (info := mkStepInfo running cmd (name step) index "" (uuid4 env (uuid_calls w))
                 (last_step_status v)).
  rewrite bind_run.
  match goal with |- context [Builder__get_env_vars env ?w3] =>
    destruct (get_env_vars_run env w3) as [envvars ->];
    destruct (get_tmp_dir_run env w3) as [cwd Hcwd];
    destruct (execute_streams env step1 cmd cwd info (last_step_status v)
                (last_step_output v) envvars w3 Hset) as (out & lines & new & Hexec & Hlines)
  end.
  cbv iota beta. rewrite bind_run, Hcwd. cbv iota beta.
  rewrite bind_run. unfold call_step. cbv zeta in Hexec. rewrite Hexec.
  cbn [self sent shell_calls uuid_calls with_output_buff with_step STEP_OUTPUT_BUFF_LEN
       _step_output_buff _current_step_output_index _current_step_output_buff_len].
  cbv iota beta. rewrite bind_run, flush_run. cbv iota beta.
  rewrite bind_run, send_info_run. cbv iota beta.
  cbn [self sent shell_calls uuid_calls with_output_buff with_step STEP_OUTPUT_BUFF_LEN
       _step_output_buff _current_step_output_index _current_step_output_buff_len
       si_uuid si_status update_step_info].
  rewrite batches_index.
  clear Hexec Hcwd. rewrite Hsof.
  set (T := STEP_OUTPUT_BUFF_LEN (self w)).
  set (run := mkStepRun info out lines).
  match goal with |- context [mkRunState ?b ?m _ _] =>
    assert (m = (sent w ++ run_trace T run)%list) as ->
  end.
  { unfold run_trace, step_trace, batches. rewrite output_msgs_app.
    cbn [output_msgs next_index sr_info sr_out sr_lines run].
    rewrite <- !app_assoc. reflexivity. }
  assert (lines_from env (new ++ new0) run) as Hl.
  { destruct Hlines as [->|(call & -> & Hcmd & ->)]; [left; reflexivity|].
    right. eexists call, _. split; [|split; [exact Hcmd|reflexivity]].
    apply elem_of_app. left. apply elem_of_cons. left. reflexivity. }
  clear Hlines.
  assert (starts index step run) as Hst by (repeat split).
  intros H.
  assert (r = Ok (after_run v run, negb (stops (run_status run) (stop_on_fail step)))
          ∧ STEP_OUTPUT_BUFF_LEN (self w') = T
          ∧ length (steps (self w')) = length (steps (self w))
          ∧ sent w' = (sent w ++ run_trace T run)%list
          ∧ uuid_calls w' = S (uuid_calls w)
          ∧ shell_calls w' = ((new ++ new0) ++ shell_calls w)%list)
    as (-> & HT & Hlen & Hs & Hu & Hc).
  { unfold stops, after_run, run_status. cbn [sr_out run].
    destruct (bool_decide (ss_status out = cancelled));
      [|destruct (bool_decide (ss_status out ∈ [fail; exception]) && stop_on_fail step)];
      injection H as <- <-;
      cbn [self sent shell_calls uuid_calls with_output_buff with_step steps
           STEP_OUTPUT_BUFF_LEN];
      rewrite <- app_assoc, !length_insert; repeat split;
      unfold next_build_status; destruct (build_status v) as [[]|]; reflexivity. }
  split; [exact HT|]. split; [exact Hlen|].
  exists run, (new ++ new0)%list. repeat split; assumption.
Qed.

(** ** The loop *)

Lemma lines_from_more env new new' run :
  lines_from env new run → lines_from env (new' ++ new) run.
Proof.
  intros [H|(call & hist & Hin & H)]; [left; exact H|].
  right. exists call, hist. split; [|exact H]. apply elem_of_app. right. exact Hin.
Qed.

Lemma lines_from_less env new new' run :
  lines_from env new' run → lines_from env (new' ++ new) run.
Proof.
  intros [H|(call & hist & Hin & H)]; [left; exact H|].
  right. exists call, hist. split; [|exact H]. apply elem_of_app. left. exact Hin.
Qed.

(** The loop sends the traces of its passes, one after the other; when it
    comes to its end, the passes are those of [loop_runs] and the
    variables are folded over them. *)
Lemma _do_build_loop_passes env todo : ∀ index v w r w',
  _do_build_loop env index todo v w = (r, w') →
  ∃ runs new,
    sent w' = (sent w ++ concat (map (run_trace (STEP_OUTPUT_BUFF_LEN (self w))) runs))%list
    ∧ STEP_OUTPUT_BUFF_LEN (self w') = STEP_OUTPUT_BUFF_LEN (self w)
    ∧ length (steps (self w')) = length (steps (self w))
    ∧ shell_calls w' = (new ++ shell_calls w)%list
    ∧ Forall (lines_from env new) runs
    ∧ (∀ v', r = Ok v' → loop_runs index todo runs ∧ v' = fold_left after_run runs v).
Proof.
  induction todo as [|step rest IH]; intros index v w r w' H.
  - injection H as <- <-. exists [], []. cbn [map concat fold_left].
    rewrite app_nil_r.
    split; [reflexivity|]. split; [reflexivity|]. split; [reflexivity|].
    split; [reflexivity|]. split; [constructor|].
    intros v' Hv. injection Hv as <-. split; [constructor|reflexivity].
  - cbn [_do_build_loop] in H. rewrite bind_run in H.
    destruct (_do_build_step env index step v w) as [[[v1 go]|e] w1] eqn:Hstep;
      apply _do_build_step_pass in Hstep as (HT & Hlen & Hpass).
    + destruct Hpass as (run & new & Hst & _ & _ & Hsent & -> & -> & _ & Hcalls & Hl).
      destruct (stops (run_status run) (stop_on_fail step)) eqn:Hstop; cbn [negb] in H.
      * injection H as <- <-. exists [run], new.
        cbn [map concat fold_left]. rewrite app_nil_r.
        split; [exact Hsent|]. split; [exact HT|]. split; [exact Hlen|].
        split; [exact Hcalls|]. split; [constructor; [exact Hl|constructor]|].
        intros v' Hv. injection Hv as <-.
        split; [apply loop_break; assumption|reflexivity].
      * apply IH in H as (runs & new' & Hsent' & HT' & Hlen' & Hcalls' & Hl' & Hok).
        exists (run :: runs), (new' ++ new)%list.
        cbn [map concat fold_left].
        rewrite Hsent', Hsent, HT', HT, Hlen', Hlen, Hcalls', Hcalls, <- !app_assoc.
        split; [reflexivity|]. split; [reflexivity|]. split; [reflexivity|].
        split; [reflexivity|]. split.
        -- constructor; [apply lines_from_more; exact Hl|].
           eapply Forall_impl; [exact Hl'|]. intros run'. apply lines_from_less.
        -- intros v' Hv. destruct (Hok v' Hv) as [Hruns ->].
           split; [apply loop_next; assumption|reflexivity].
    + injection H as <- <-. destruct Hpass as (Hsent & (new & Hcalls) & _).
      exists [], new. cbn [map concat].
      rewrite app_nil_r.
      split; [exact Hsent|]. split; [exact HT|]. split; [exact Hlen|].
      split; [exact Hcalls|]. split; [constructor|].
      intros v' Hv. discriminate.
Qed.

Lemma fold_after_run runs : ∀ v,
  lv_steps (fold_left after_run runs v) = (lv_steps v ++ map run_final runs)%list
  ∧ build_status (fold_left after_run runs v) =
      fold_left next_build_status (map run_status runs) (build_status v).
Proof.
  induction runs as [|run runs IH]; intros v; cbn [fold_left map].
  - rewrite app_nil_r. split; reflexivity.
  - destruct (IH (after_run v run)) as [-> ->]. cbn [after_run lv_steps build_status].
    rewrite <- app_assoc. split; reflexivity.
Qed.

(** ** The build *)

(** A build sends its first [build_info], then the traces of the passes
    of its loop; what it returns is read off the passes. *)
Lemma Builder__do_build_passes env w r w' :
  Builder__do_build env w = (r, w') →
  ∃ runs new,
    sent w' =
      (sent w ++ build_info (mkBuildInfo [] (Some running) None)
         :: concat (map (run_trace (STEP_OUTPUT_BUFF_LEN (self w))) runs))%list
    ∧ shell_calls w' = (new ++ shell_calls w)%list
    ∧ Forall (lines_from env new) runs
    ∧ (∀ bi, r = Ok bi →
         loop_runs 0 (steps (self w)) runs
         ∧ bi = mkBuildInfo (map run_final runs)
                  (fold_left next_build_status (map run_status runs) None)
                  (Some (length (steps (self w))))).
Proof.
  unfold Builder__do_build. rewrite bind_run, send_info_run. cbv iota beta.
  rewrite bind_run. unfold get_builder at 1. rewrite bind_run. unfold get_state at 1.
  cbv iota beta. unfold mret at 1, Eff_ret. cbn [self]. rewrite bind_run.
  destruct (_do_build_loop env 0 (steps (self w)) _ _) as [[v|e] w1] eqn:Hloop;
    apply _do_build_loop_passes in Hloop
      as (runs & new & Hsent & _ & Hlen & Hcalls & Hl & Hok);
    cbn [self sent shell_calls] in *; intros H; injection H as <- <-;
    exists runs, new; rewrite Hsent, <- app_assoc;
    (split; [reflexivity|]); (split; [exact Hcalls|]); (split; [exact Hl|]);
    intros bi Hbi; [|discriminate].
  injection Hbi as <-. destruct (Hok v eq_refl) as [Hruns ->]. split; [exact Hruns|].
  destruct (fold_after_run runs (mkLoopVars None None None [])) as [-> ->].
  rewrite Hlen. reflexivity.
Qed.


(** ** The status of a build *)

Lemma fold_next_sticky statuses : ∀ status,
  status ≠ success →
  fold_left next_build_status statuses (Some status) = Some status.
Proof.
  induction statuses as [|s rest IH]; intros status Hne; cbn [fold_left]; [reflexivity|].
  replace (next_build_status (Some status) s) with (Some status)
    by (destruct status; [reflexivity|contradiction|reflexivity..]).
  apply IH, Hne.
Qed.

Lemma fold_next_success statuses :
  fold_left next_build_status statuses (Some success) =
    match first_non_success statuses with
    | None => Some success
    | other => other
    end.
Proof.
  induction statuses as [|s rest IH]; cbn [fold_left first_non_success]; [reflexivity|].
  cbn [next_build_status]. destruct (decide (s = success)) as [->|Hne].
  - rewrite IH. cbn. destruct (first_non_success rest); reflexivity.
  - rewrite bool_decide_eq_false_2 by exact Hne. apply fold_next_sticky, Hne.
Qed.

Lemma fold_next_none statuses :
  fold_left next_build_status statuses None = first_non_success statuses.
Proof.
  destruct statuses as [|s rest]; cbn [fold_left first_non_success]; [reflexivity|].
  cbn [next_build_status]. destruct (decide (s = success)) as [->|Hne].
  - rewrite fold_next_success. reflexivity.
  - rewrite bool_decide_eq_false_2 by exact Hne. apply fold_next_sticky, Hne.
Qed.




(** ** Which steps run *)

Open Scope nat_scope.

Lemma loop_runs_facts index todo runs :
  loop_runs index todo runs →
  length runs ≤ length todo
  ∧ ∀ i run, runs !! i = Some run →
      ∃ step, todo !! i = Some step
        ∧ starts (index + i) step run
        ∧ (stops (run_status run) (stop_on_fail step) = true → length runs = S i)
        ∧ (stops (run_status run) (stop_on_fail step) = false →
             S i < length todo → S i < length runs).
Proof.
  induction 1 as [index|index step rest run Hst Hstop
                 |index step rest run runs Hst Hstop Hruns [IHlen IH]].
  - split; [reflexivity|]. intros i run Hi. discriminate.
  - split; [cbn; lia|]. intros [|i] run' Hi; [|destruct i; discriminate].
    injection Hi as <-. exists step. rewrite Nat.add_0_r.
    split; [reflexivity|]. split; [exact Hst|].
    split; [reflexivity|]. intros Hgo. congruence.
  - split; [cbn; lia|]. intros [|i] run' Hi.
    + injection Hi as <-. exists step. rewrite Nat.add_0_r.
      split; [reflexivity|]. split; [exact Hst|].
      split; [intros Hs; congruence|].
      intros _ Hlt. cbn [length] in *.
      inversion Hruns; subst; cbn [length] in *; lia.
    + destruct (IH i run' Hi) as (step' & Hstep' & Hst' & Hbreak & Hnext).
      exists step'. replace (index + S i) with (S index + i) by lia.
      split; [exact Hstep'|]. split; [exact Hst'|].
      split; [intros Hs; cbn [length]; f_equal; apply Hbreak, Hs|].
      intros Hs Hlt. cbn [length] in *. apply ->Nat.succ_lt_mono. apply Hnext; [exact Hs|lia].
Qed.

Lemma stops_spec status sof :
  stops status sof = true ↔
    status = cancelled ∨ ((status = fail ∨ status = exception) ∧ sof = true).
Proof.
  unfold stops. destruct status, sof; cbn; split; intros H; try reflexivity;
    try discriminate; try (left; reflexivity);
    try (right; split; [left; reflexivity|reflexivity]);
    try (right; split; [right; reflexivity|reflexivity]);
    destruct H as [H|[[H|H] H']]; discriminate.
Qed.

(** C3: in a build that returns, the executed steps are the first steps
    of the builder, in order. A step that ends cancelled is the last one
    executed, whatever its [stop_on_fail]; so is a step that ends fail or
    exception and has [stop_on_fail]; a step without [stop_on_fail] that
    does not end cancelled is followed by the next step, if there is
    one. *)
Theorem stop_on_fail_and_cancelled_end_the_loop (env : Env) (w : RunState)
    (bi : BuildInfo) (w' : RunState) :
  Builder__do_build env w = (Ok bi, w') →
  length (bi_steps bi) ≤ length (steps (self w))
  ∧ ∀ i info, bi_steps bi !! i = Some info →
      ∃ step, steps (self w) !! i = Some step
        ∧ si_index info = i
        ∧ si_name info = name step
        ∧ (si_status info = cancelled → length (bi_steps bi) = S i)
        ∧ (si_status info = fail ∨ si_status info = exception →
             stop_on_fail step = true → length (bi_steps bi) = S i)
        ∧ (stop_on_fail step = false → si_status info ≠ cancelled →
             S i < length (steps (self w)) → S i < length (bi_steps bi)).
Proof.
  intros H.
  apply Builder__do_build_passes in H as (runs & new & _ & _ & _ & Hok).
  destruct (Hok bi eq_refl) as [Hruns ->]. cbn [bi_steps].
  apply loop_runs_facts in Hruns as [Hlen Hfacts].
  rewrite length_map. split; [exact Hlen|].
  intros i info Hi. rewrite list_lookup_fmap in Hi.
  destruct (runs !! i) as [run|] eqn:Hrun; [|discriminate].
  injection Hi as <-.
  destruct (Hfacts i run Hrun) as (step & Hstep & (_ & Hindex & Hname & _) & Hbreak & Hnext).
  exists step. split; [exact Hstep|].
  split; [exact Hindex|]. split; [exact Hname|].
  change (si_status (run_final run)) with (run_status run).
  split; [|split].
  - intros Hc. apply Hbreak, stops_spec. left. exact Hc.
  - intros Hf Hsof. apply Hbreak, stops_spec. right. split; assumption.
  - intros Hsof Hc. apply Hnext.
    destruct (stops (run_status run) (stop_on_fail step)) eqn:Hs; [|reflexivity].
    apply stops_spec in Hs as [Hs|[_ Hs]]; [contradiction|congruence].
Qed.

Lemma stop_on_fail_and_cancelled_end_the_loop_witness :
  ∃ b bi w',
    built sample_env 0 lint_test_conf ∅ = Ok b
    ∧ Builder__do_build sample_env (fresh b) = (Ok bi, w')
    ∧ length (bi_steps bi) ≤ length (steps (self (fresh b)))
    ∧ ∀ i info, bi_steps bi !! i = Some info →
        ∃ step, steps (self (fresh b)) !! i = Some step
          ∧ si_index info = i
          ∧ si_name info = name step
          ∧ (si_status info = cancelled → length (bi_steps bi) = S i)
          ∧ (si_status info = fail ∨ si_status info = exception →
               stop_on_fail step = true → length (bi_steps bi) = S i)
          ∧ (stop_on_fail step = false → si_status info ≠ cancelled →
               S i < length (steps (self (fresh b))) → S i < length (bi_steps bi)).
Proof.
  eexists _, _, _. split; [vm_compute; reflexivity|].
  match goal with |- ?A ∧ _ => assert A as H by (vm_compute; reflexivity) end.
  split; [exact H|].
  exact (stop_on_fail_and_cancelled_end_the_loop sample_env _ _ _ H).
Defined.

(** ** The output messages of a step *)

Lemma output_msgs_uuid uuid buffs : ∀ start,
  Forall (is_output_of uuid) (output_msgs uuid start buffs).
Proof.
  induction buffs as [|buff rest IH]; intros start; cbn [output_msgs]; constructor.
  - reflexivity.
  - apply IH.
Qed.

Lemma output_msgs_length uuid buffs : ∀ start,
  length (output_msgs uuid start buffs) = length buffs.
Proof.
  induction buffs as [|buff rest IH]; intros start; cbn [output_msgs length];
    [reflexivity|]. rewrite IH. reflexivity.
Qed.

Lemma batches_length T lines :
  length (batches T lines) = S (length (stream T [] 0 lines).1).
Proof. unfold batches. rewrite length_app. cbn [length]. lia. Qed.




Lemma run_trace_indexes T run :
  output_indexes (run_trace T run) = seq 0 (length (batches T (sr_lines run))).
Proof.
  unfold run_trace, step_trace.
  change (output_indexes (step_info ?i :: ?l)) with (output_indexes l).
  unfold output_indexes at 1. rewrite omap_app. fold (output_indexes (output_msgs
    (si_uuid (sr_info run)) 0 (batches T (sr_lines run)))).
  cbn [omap]. rewrite app_nil_r. apply output_indexes_output_msgs.
Qed.

(** C4: the messages of a build are its first [build_info] and then, for
    each step executed, the running [step_info], the [step_output_info]
    messages of the step and the final [step_info]; the
    [step_output_info] messages of a step carry its uuid, and their
    [output_index] are 0, 1, 2, ... in the order they are sent. *)
Theorem output_index_counts_from_zero (env : Env) (w : RunState)
    (r : result BuildInfo) (w' : RunState) :
  Builder__do_build env w = (r, w') →
  ∃ passes : list (StepInfo * list Msg * StepInfo),
    sent w' =
      (sent w ++ build_info (mkBuildInfo [] (Some running) None)
         :: concat (map (λ p, step_info p.1.1 :: p.1.2 ++ [step_info p.2]) passes))%list
    ∧ (∀ bi, r = Ok bi → bi_steps bi = map snd passes)
    ∧ Forall (λ p, si_uuid p.2 = si_uuid p.1.1
                   ∧ Forall (is_output_of (si_uuid p.1.1)) p.1.2
                   ∧ output_indexes p.1.2 = seq 0 (length p.1.2)) passes.
Proof.
  intros H.
  apply Builder__do_build_passes in H as (runs & new & Hsent & _ & _ & Hok).
  set (T := STEP_OUTPUT_BUFF_LEN (self w)) in *.
  exists (map (λ run, (sr_info run,
                       output_msgs (si_uuid (sr_info run)) 0 (batches T (sr_lines run)),
                       run_final run)) runs).
  rewrite !map_map. split; [exact Hsent|]. split.
  - intros bi Hbi. destruct (Hok bi Hbi) as [_ ->]. reflexivity.
  - apply Forall_map, Forall_forall. intros run _. cbn [fst snd].
    split; [reflexivity|]. split; [apply output_msgs_uuid|].
    rewrite output_indexes_output_msgs, output_msgs_length. reflexivity.
Qed.

Lemma output_index_counts_from_zero_witness :
  ∃ b r w',
    built sample_env 0 seq_conf ∅ = Ok b
    ∧ Builder__do_build sample_env (fresh b) = (r, w')
    ∧ ∃ passes : list (StepInfo * list Msg * StepInfo),
        sent w' =
          (sent (fresh b) ++ build_info (mkBuildInfo [] (Some running) None)
             :: concat (map (λ p, step_info p.1.1 :: p.1.2 ++ [step_info p.2]) passes))%list
        ∧ (∀ bi, r = Ok bi → bi_steps bi = map snd passes)
        ∧ Forall (λ p, si_uuid p.2 = si_uuid p.1.1
                       ∧ Forall (is_output_of (si_uuid p.1.1)) p.1.2
                       ∧ output_indexes p.1.2 = seq 0 (length p.1.2)) passes.
Proof.
  eexists _, _, _. split; [vm_compute; reflexivity|].
  match goal with |- ?A ∧ _ => assert A as H by (vm_compute; reflexivity) end.
  split; [exact H|].
  exact (output_index_counts_from_zero sample_env _ _ _ H).
Defined.

(** ** The output of a message *)




(** ** Every step sends output *)

(** C10: each step a build executes sends at least one
    [step_output_info]; a step whose command hands no line to [out_fn]
    sends exactly one, with [output_index] 0 and the empty output, between
    its two [step_info]. The lines of a step are none, or the lines of a
    call of the build that ran the command of the step. *)
Theorem every_step_sends_output_info (env : Env) (w : RunState)
    (r : result BuildInfo) (w' : RunState) :
  Builder__do_build env w = (r, w') →
  ∃ runs new,
    sent w' =
      (sent w ++ build_info (mkBuildInfo [] (Some running) None)
         :: concat (map (run_trace (STEP_OUTPUT_BUFF_LEN (self w))) runs))%list
    ∧ shell_calls w' = (new ++ shell_calls w)%list
    ∧ (∀ bi, r = Ok bi → bi_steps bi = map run_final runs)
    ∧ Forall (λ run,
                let trace := run_trace (STEP_OUTPUT_BUFF_LEN (self w)) run in
                lines_from env new run
                ∧ 1 ≤ length (output_indexes trace)
                ∧ (sr_lines run = [] →
                     trace = [step_info (sr_info run);
                              step_output_info (si_uuid (sr_info run)) 0 "";
                              step_info (run_final run)])) runs.
Proof.
  intros H.
  apply Builder__do_build_passes in H as (runs & new & Hsent & Hcalls & Hl & Hok).
  exists runs, new. split; [exact Hsent|]. split; [exact Hcalls|]. split.
  - intros bi Hbi. destruct (Hok bi Hbi) as [_ ->]. reflexivity.
  - eapply Forall_impl; [exact Hl|]. intros run Hrun. cbv zeta.
    split; [exact Hrun|]. split.
    + rewrite run_trace_indexes, length_seq, batches_length. lia.
    + intros Hnil. unfold run_trace, step_trace. rewrite Hnil. reflexivity.
Qed.

Lemma every_step_sends_output_info_witness :
  ∃ b r w',
    built sample_env 0 quiet_conf ∅ = Ok b
    ∧ Builder__do_build sample_env (fresh b) = (r, w')
    ∧ ∃ runs new,
        sent w' =
          (sent (fresh b) ++ build_info (mkBuildInfo [] (Some running) None)
             :: concat (map (run_trace (STEP_OUTPUT_BUFF_LEN (self (fresh b)))) runs))%list
        ∧ shell_calls w' = (new ++ shell_calls (fresh b))%list
        ∧ (∀ bi, r = Ok bi → bi_steps bi = map run_final runs)
        ∧ Forall (λ run,
                    let trace := run_trace (STEP_OUTPUT_BUFF_LEN (self (fresh b))) run in
                    lines_from sample_env new run
                    ∧ 1 ≤ length (output_indexes trace)
                    ∧ (sr_lines run = [] →
                         trace = [step_info (sr_info run);
                                  step_output_info (si_uuid (sr_info run)) 0 "";
                                  step_info (run_final run)])) runs.
Proof.
  eexists _, _, _. split; [vm_compute; reflexivity|].
  match goal with |- ?A ∧ _ => assert A as H by (vm_compute; reflexivity) end.
  split; [exact H|].
  exact (every_step_sends_output_info sample_env _ _ _ H).
Defined.

(** ** When a build returns *)



(** ** The shipped threshold *)

(** With [STEP_OUTPUT_BUFF_LEN] 0 a buffer that is flushed holds empty
    lines and then at most one line that is not empty: joined by newline
    or by nothing, it is stripped to the same string. *)

Lemma join_blank_line buff line :
  blank buff → Py.join "" (buff ++ [line]) = line.
Proof.
  induction 1 as [|l rest -> _ IH]; [reflexivity|].
  cbn [app]. unfold Py.join in *. cbn [String.concat].
  destruct (rest ++ [line])%list eqn:E; [destruct rest; discriminate|exact IH].
Qed.

Lemma join_blank buff : blank buff → Py.join "" buff = "".
Proof.
  induction 1 as [|l rest -> _ IH]; [reflexivity|].
  unfold Py.join in *. cbn [String.concat]. destruct rest; [reflexivity|exact IH].
Qed.

Lemma lstrip_newline_join_blank_line buff line :
  blank buff →
  Py.lstrip "010" (Py.join newline (buff ++ [line])) = Py.lstrip "010" line.
Proof.
  induction 1 as [|l rest -> _ IH]; [reflexivity|].
  cbn [app]. unfold Py.join in *. cbn [String.concat].
  destruct (rest ++ [line])%list eqn:E; [destruct rest; discriminate|exact IH].
Qed.

Lemma newline_join_blank buff :
  blank buff → only_char "010" (Py.join newline buff) = true.
Proof.
  induction 1 as [|l rest -> _ IH]; [reflexivity|].
  unfold Py.join in *. cbn [String.concat]. destruct rest; [reflexivity|exact IH].
Qed.

Lemma newline_joined_blank_line buff line :
  blank buff →
  newline_joined (buff ++ [line]) = Py.strip "010" (Py.join "" (buff ++ [line])).
Proof.
  intros H. unfold newline_joined, Py.strip.
  rewrite lstrip_newline_join_blank_line, join_blank_line by exact H. reflexivity.
Qed.

Lemma newline_joined_blank buff :
  blank buff → newline_joined buff = Py.strip "010" (Py.join "" buff).
Proof.
  intros H. unfold newline_joined. rewrite (join_blank buff H).
  apply strip_empty_iff, newline_join_blank, H.
Qed.

Lemma len_zero line : Py.len line = 0 → line = "".
Proof. destruct line; [reflexivity|discriminate]. Qed.

Lemma stream_zero lines : ∀ buff,
  blank buff →
  Forall (λ b, newline_joined b = Py.strip "010" (Py.join "" b)) (stream 0 buff 0 lines).1
  ∧ blank (stream 0 buff 0 lines).2.1.
Proof.
  induction lines as [|line rest IH]; intros buff Hb; cbn [stream].
  - split; [constructor|exact Hb].
  - destruct (0 <? 0 + Py.len line) eqn:E.
    + destruct (IH [] (List.Forall_nil _)) as [Hall Hrest]. cbn [fst snd].
      split; [|exact Hrest]. constructor; [|exact Hall].
      apply newline_joined_blank_line, Hb.
    + apply Nat.ltb_ge in E. assert (Py.len line = 0) as Hz by lia.
      rewrite Hz. apply IH. apply Forall_app. split; [exact Hb|].
      constructor; [apply len_zero, Hz|constructor].
Qed.

(** At the threshold of [Builder], the words of the spec and the code
    give the same output for every buffer that is flushed. *)
Lemma newline_joined_agrees_at_zero lines :
  Forall (λ b, newline_joined b = Py.strip "010" (Py.join "" b)) (batches 0 lines).
Proof.
  destruct (stream_zero lines [] (List.Forall_nil _)) as [Hall Hrest].
  unfold batches. apply Forall_app. split; [exact Hall|].
  constructor; [apply newline_joined_blank, Hrest|constructor].
Qed.

(** ** What a pass of the loop leaves alone *)

Lemma same_settings_refl b : same_settings b b.
Proof. repeat split. Qed.

Lemma same_settings_trans b1 b2 b3 :
  same_settings b1 b2 → same_settings b2 b3 → same_settings b1 b3.
Proof.
  unfold same_settings. intros H1 H2.
  destruct H1 as (?&?&?&?&?&?&?&?&?), H2 as (?&?&?&?&?&?&?&?&?).
  repeat split; congruence.
Qed.

Lemma get_command_keeps env s w r s' w' :
  get_command env (s, w) = (r, (s', w')) →
  warning_on_fail s' = warning_on_fail s
  ∧ timeout s' = timeout s
  ∧ (shell_calls w' = shell_calls w
     ∨ ∃ packages, shell_calls w' = dpkg_probe packages :: shell_calls w).
Proof.
  intros H.
  destruct (step_class s) as [| | |p c] eqn:E.
  1-3: rewrite get_command_inherited in H by (intros ? ?; congruence);
       injection H as <- <- <-; repeat split; left; reflexivity.
  destruct (is_set c) eqn:Hc.
  - destruct c as [c|]; [|discriminate]. simpl in Hc.
    assert (c ≠ "") as Hne.
    { intros ->. discriminate. }
    rewrite (get_command_cached _ _ _ _ _ E Hne) in H.
    injection H as <- <- <-. repeat split; left; reflexivity.
  - rewrite (get_command_probe _ _ _ _ _ E Hc) in H.
    destruct (run_outcome _) as [out|out| |]; [destruct (Py.int out) as [n|]|..];
      injection H as <- <- <-; repeat split; right; exists p; reflexivity.
Qed.

Lemma with_output_buff_settings b buff index buff_len :
  same_settings b (with_output_buff b buff index buff_len)
  ∧ steps (with_output_buff b buff index buff_len) = steps b.
Proof. repeat split. Qed.

Lemma outcome_status_terminal s o :
  terminal (ss_status (outcome_status s o))
  ∧ (warning_on_fail s = true →
       ss_status (outcome_status s o) ≠ fail
       ∧ ss_status (outcome_status s o) ≠ exception).
Proof.
  unfold terminal. destruct o; cbn [outcome_status ss_status];
    destruct (warning_on_fail s); split; try discriminate;
    intros H; split; discriminate.
Qed.

(** [execute] with the [out_fn] of the builder, on a step whose command
    is settled: it never raises, it makes at most one call of the shell,
    and it touches the buffer of the builder only. *)
Lemma execute_answer env s cmd cwd info lss lso envvars w :
  settled env s cmd →
  ∃ out w',
    execute env cwd (Some (Builder__send_step_output_info info)) lss lso envvars (s, w) =
      (Ok out, (s, w'))
    ∧ same_settings (self w) (self w')
    ∧ steps (self w') = steps (self w)
    ∧ uuid_calls w' = uuid_calls w
    ∧ (shell_calls w' = shell_calls w
       ∨ shell_calls w' = mkShellCall cmd cwd (timeout s) envvars :: shell_calls w)
    ∧ terminal (ss_status out)
    ∧ (warning_on_fail s = true → ss_status out ≠ fail ∧ ss_status out ≠ exception).
Proof.
  intros Hset.
  assert (∃ out w',
    BuildStep_execute env cwd (Some (Builder__send_step_output_info info)) lss lso
        envvars (s, w) = (Ok out, (s, w'))
    ∧ same_settings (self w) (self w')
    ∧ steps (self w') = steps (self w)
    ∧ uuid_calls w' = uuid_calls w
    ∧ (shell_calls w' = shell_calls w
       ∨ shell_calls w' = mkShellCall cmd cwd (timeout s) envvars :: shell_calls w)
    ∧ terminal (ss_status out)
    ∧ (warning_on_fail s = true → ss_status out ≠ fail ∧ ss_status out ≠ exception))
    as Hbase.
  { set (call := mkShellCall cmd cwd (timeout s) envvars).
    set (run := shell env (shell_calls w) call).
    eexists (outcome_status s (run_outcome run)), _.
    split.
    - eapply BuildStep_execute_settled; [exact Hset|].
      cbn [feed]. apply (feed_lines_stream info (run_lines run) 0 (record_call call w)).
    - cbn [self sent shell_calls uuid_calls record_call].
      split; [apply with_output_buff_settings|]. split; [reflexivity|].
      split; [reflexivity|]. split; [right; reflexivity|].
      apply outcome_status_terminal. }
  unfold execute. rewrite bind_run. unfold get_self. cbn [fst].
  destruct (step_class s) as [|data_dir venv_dir pyversion| |p c]; try exact Hbase.
  unfold PythonCreateVenvStep_execute. rewrite bind_run.
  unfold in_world, get_state. cbn [fst snd].
  destruct (path_exists env (shell_calls w) _); [|exact Hbase].
  exists (mkStepStatus success "venv exists. Skipping..."), w.
  split; [destruct w; reflexivity|].
  split; [apply same_settings_refl|]. split; [reflexivity|]. split; [reflexivity|].
  split; [left; reflexivity|]. split; [discriminate|].
  intros _. split; discriminate.
Qed.

Lemma get_env_vars_is env w :
  Builder__get_env_vars env w = (Ok (step_envvars env (self w)), w).
Proof. reflexivity. Qed.

Lemma get_tmp_dir_is env w :
  Builder__get_tmp_dir env w = (Ok (tmp_dir env (self w)), w).
Proof. reflexivity. Qed.

(** A pass of the loop assigns the buffer and the step it runs, nothing
    else of the builder; the calls of the shell it makes are the probe of
    the step and the command of the step; when it returns the buffer is
    empty and the status of the step is terminal. *)
Lemma _do_build_step_keeps env index step v w r w' :
  _do_build_step env index step v w = (r, w') →
  same_settings (self w) (self w')
  ∧ (∃ new, shell_calls w' = (new ++ shell_calls w)%list
            ∧ Forall (step_call env (self w) step) new)
  ∧ match r with
    | Ok (v', go) =>
        _step_output_buff (self w') = []
        ∧ _current_step_output_buff_len (self w') = 0
        ∧ ∃ status,
            last_step_status v' = Some status
            ∧ terminal status
            ∧ (warning_on_fail step = true → status ≠ fail ∧ status ≠ exception)
    | Raise e =>
        _step_output_buff (self w') = []
        ∧ _current_step_output_buff_len (self w') = 0
    end.
Proof.
  unfold _do_build_step. rewrite bind_run.
  change (Builder__clear_step_output_buff w) with
    (Ok tt, mkRunState (with_output_buff (self w) [] None 0) (sent w) (shell_calls w)
              (uuid_calls w)).
  cbv iota beta. rewrite bind_run. unfold call_step at 1.
  destruct (get_command env _) as [[cmd|e] [step1 w1]] eqn:Hgc.
  2: { pose proof (get_command_keeps _ _ _ _ _ _ Hgc) as (_ & _ & Hcalls).
       apply get_command_raise in Hgc as (_ & Hself & _ & _ & _).
       cbn [self sent shell_calls] in *. intros H. injection H as <- <-.
       cbn [self sent shell_calls]. rewrite Hself.
       split; [repeat split; cbn [with_step steps]; rewrite length_insert; reflexivity|].
       split; [|split; reflexivity].
       destruct Hcalls as [->|[p ->]].
       - exists []. split; [reflexivity|constructor].
       - exists [dpkg_probe p]. split; [reflexivity|].
         constructor; [left; exists p; reflexivity|constructor]. }
  pose proof (get_command_keeps _ _ _ _ _ _ Hgc) as (Hwof & Htimeout & Hcalls).
  apply get_command_answer in Hgc
    as (Hset & Hname & Hsof & Hself & Hsent & Huuid & _).
  cbn [self sent shell_calls uuid_calls] in *.
  rewrite bind_run, new_uuid_run. cbv iota beta.
  rewrite bind_run, send_info_run. cbv iota beta.
  cbn [self sent shell_calls uuid_calls].
  rewrite Hname, Hsent, Huuid, Hself.
  set (info := mkStepInfo running cmd (name step) index "" (uuid4 env (uuid_calls w))
                 (last_step_status v)).
  rewrite bind_run, get_env_vars_is. cbv iota beta.
  rewrite bind_run, get_tmp_dir_is. cbv iota beta.
  cbn [self].
  change (step_envvars env (with_step (with_output_buff (self w) [] None 0) index step1))
    with (step_envvars env (self w)).
  change (tmp_dir env (with_step (with_output_buff (self w) [] None 0) index step1))
    with (tmp_dir env (self w)).
  rewrite bind_run.
  match goal with |- context [call_step index step1 ?m ?w3] =>
    destruct (execute_answer env step1 cmd (tmp_dir env (self w)) info (last_step_status v)
                (last_step_output v) (step_envvars env (self w)) w3 Hset)
      as (out & w4 & Hexec & Hsame & Hsteps & _ & Hcall & Hterm & Hwarn)
  end.
  unfold call_step. rewrite Hexec.
  cbv iota beta. rewrite bind_run, flush_run. cbv iota beta.
  rewrite bind_run, send_info_run. cbv iota beta.
  cbn [self sent shell_calls uuid_calls with_output_buff with_step STEP_OUTPUT_BUFF_LEN
       _step_output_buff _current_step_output_index _current_step_output_buff_len
       si_uuid si_status update_step_info] in *.
  intros H.
  assert (w' = mkRunState
                 (with_output_buff (with_step (self w4) index step1) []
                    (Some (next_index (_current_step_output_index (self w4)))) 0)
                 ((sent w4 ++ [step_output_info (uuid4 env (uuid_calls w))
                                 (next_index (_current_step_output_index (self w4)))
                                 (Py.strip "010" (Py.join "" (_step_output_buff (self w4))))])
                    ++ [step_info (update_step_info info out)])
                 (shell_calls w4) (uuid_calls w4)
          ∧ ∃ v' go, r = Ok (v', go) ∧ last_step_status v' = Some (ss_status out))
    as (-> & v' & go & -> & Hlast).
  { destruct (bool_decide (ss_status out = cancelled));
      [|destruct (bool_decide (ss_status out ∈ [fail; exception]) && stop_on_fail step1)];
      injection H as <- <-; (split; [reflexivity|]); eexists _, _;
      (split; [reflexivity|]); reflexivity. }
  cbn [self shell_calls with_output_buff _step_output_buff
       _current_step_output_buff_len].
  split.
  - destruct Hsame as (H1 & H2 & H3 & H4 & H5 & H6 & H7 & H8 & H9).
    cbn [with_step with_output_buff conf builder_name workdir plugins platform
         remove_env envvars STEP_OUTPUT_BUFF_LEN steps] in *.
    rewrite length_insert in H9.
    repeat split;
      cbn [with_step with_output_buff conf builder_name workdir plugins platform
           remove_env envvars STEP_OUTPUT_BUFF_LEN steps];
      rewrite ?length_insert; assumption.
  - split.
    + assert (step_call env (self w) step
                (mkShellCall cmd (tmp_dir env (self w)) (timeout step1)
                   (step_envvars env (self w)))) as Hstep.
      { right. cbn [sc_cwd sc_envvars sc_timeout]. rewrite Htimeout. repeat split. }
      destruct Hcall as [->| ->], Hcalls as [->|[p ->]].
      * exists []. split; [reflexivity|constructor].
      * exists [dpkg_probe p]. split; [reflexivity|].
        constructor; [left; exists p; reflexivity|constructor].
      * eexists [_]. split; [reflexivity|]. constructor; [exact Hstep|constructor].
      * eexists [_; dpkg_probe p]. split; [reflexivity|].
        constructor; [exact Hstep|].
        constructor; [left; exists p; reflexivity|constructor].
    + split; [reflexivity|]. split; [reflexivity|].
      exists (ss_status out). split; [exact Hlast|]. split; [exact Hterm|].
      rewrite <- Hwof. exact Hwarn.
Qed.

Lemma step_call_settings env b b' step call :
  same_settings b b' → step_call env b' step call → step_call env b step call.
Proof.
  intros (_ & Hname & Hwd & Hpl & _ & _ & Henv & _) [H|(Hcwd & Hvars & Ht)];
    [left; exact H|].
  right. unfold tmp_dir, step_envvars in *.
  rewrite Hname, Hwd in Hcwd. rewrite Hpl, Henv in Hvars. repeat split; assumption.
Qed.

(** The loop, pass after pass: what it leaves alone, the calls of the
    shell it makes, where an exception comes from, and how the
    [step_info] it collects follow one another. *)
Lemma _do_build_loop_keeps env todo : ∀ index v w r w',
  _do_build_loop env index todo v w = (r, w') →
  same_settings (self w) (self w')
  ∧ (∃ new, shell_calls w' = (new ++ shell_calls w)%list
            ∧ Forall (λ call, ∃ step, step ∈ todo ∧ step_call env (self w) step call) new)
  ∧ (todo ≠ [] →
       _step_output_buff (self w') = [] ∧ _current_step_output_buff_len (self w') = 0)
  ∧ (∀ e, r = Raise e →
       ∃ step w0 s1 w1, step ∈ todo ∧ get_command env (step, w0) = (Raise e, (s1, w1)))
  ∧ (∀ v', r = Ok v' →
       ∃ infos,
         lv_steps v' = (lv_steps v ++ infos)%list
         ∧ uuid_calls w' = uuid_calls w + length infos
         ∧ ∀ j info, infos !! j = Some info →
             ∃ step, todo !! j = Some step
               ∧ si_uuid info = uuid4 env (uuid_calls w + j)
               ∧ si_last_step_status info =
                   match j with
                   | 0 => last_step_status v
                   | S j' => si_status <$> infos !! j'
                   end
               ∧ terminal (si_status info)
               ∧ (warning_on_fail step = true →
                    si_status info ≠ fail ∧ si_status info ≠ exception)).
Proof.
  induction todo as [|step rest IH]; intros index v w r w' H.
  - injection H as <- <-. split; [apply same_settings_refl|].
    split; [exists []; split; [reflexivity|constructor]|].
    split; [congruence|]. split; [discriminate|].
    intros v' Hv. injection Hv as <-. exists []. rewrite app_nil_r.
    split; [reflexivity|]. split; [cbn; lia|]. intros j info Hj. discriminate.
  - cbn [_do_build_loop] in H. rewrite bind_run in H.
    destruct (_do_build_step env index step v w) as [[[v1 go]|e] w1] eqn:Hstep.
    + pose proof (_do_build_step_keeps _ _ _ _ _ _ _ Hstep)
        as (Hsame & (new & Hcalls & Hnew) & Hbuff & Hbufflen & status & Hlast & Hterm & Hwarn).
      apply _do_build_step_pass in Hstep
        as (_ & _ & run & new0 & _ & Huuid & Hlss & _ & -> & -> & Hdrawn & _ & _).
      cbn [after_run last_step_status] in Hlast. injection Hlast as <-.
      assert (∀ j info, [run_final run] !! j = Some info →
                ∃ step', (step :: rest) !! j = Some step'
                  ∧ si_uuid info = uuid4 env (uuid_calls w + j)
                  ∧ si_last_step_status info =
                      match j with
                      | 0 => last_step_status v
                      | S j' => si_status <$> [run_final run] !! j'
                      end
                  ∧ terminal (si_status info)
                  ∧ (warning_on_fail step' = true →
                       si_status info ≠ fail ∧ si_status info ≠ exception)) as Hone.
      { intros [|j] info Hj; [|destruct j; discriminate]. injection Hj as <-.
        exists step. rewrite Nat.add_0_r. split; [reflexivity|].
        split; [exact Huuid|]. split; [exact Hlss|]. split; assumption. }
      assert (Forall (λ call, ∃ step', step' ∈ step :: rest
                                ∧ step_call env (self w) step' call) new) as Hnew'.
      { eapply Forall_impl; [exact Hnew|]. intros call Hc. exists step.
        split; [apply elem_of_cons; left; reflexivity|exact Hc]. }
      destruct (stops (run_status run) (stop_on_fail step)); cbn [negb] in H.
      * injection H as <- <-. split; [exact Hsame|].
        split; [exists new; split; assumption|].
        split; [intros _; split; assumption|]. split; [discriminate|].
        intros v' Hv. injection Hv as <-. exists [run_final run].
        split; [reflexivity|]. split; [cbn [length]; lia|]. exact Hone.
      * pose proof H as Hrest.
        apply IH in H as (Hsame' & (new' & Hcalls' & Hnew'') & Hclear & Hraise & Hok).
        split; [eapply same_settings_trans; eassumption|].
        split; [|split; [|split]].
        2: { intros _. destruct rest as [|step' rest']; [|apply Hclear; discriminate].
             injection Hrest as _ <-. split; assumption. }
        -- exists (new' ++ new)%list. rewrite Hcalls', Hcalls, app_assoc.
           split; [reflexivity|]. apply Forall_app. split; [|exact Hnew'].
           eapply Forall_impl; [exact Hnew''|]. intros call (step' & Hin & Hc).
           exists step'. split; [apply elem_of_cons; right; exact Hin|].
           eapply step_call_settings; eassumption.
        -- intros e He. destruct (Hraise e He) as (step' & w0 & s1 & w2 & Hin & Hg).
           exists step', w0, s1, w2. split; [apply elem_of_cons; right; exact Hin|exact Hg].
        -- intros v' Hv. destruct (Hok v' Hv) as (infos & Hsteps & Hu & Hinfos).
           exists (run_final run :: infos). cbn [after_run lv_steps] in Hsteps.
           rewrite Hsteps, <- app_assoc. split; [reflexivity|].
           split; [rewrite Hu, Hdrawn; cbn [length]; lia|].
           intros [|j] info Hj; [apply (Hone 0 info Hj)|].
           destruct (Hinfos j info Hj) as (step' & Hs' & Hu' & Hl' & Ht' & Hw').
           exists step'. split; [exact Hs'|].
           split; [rewrite Hu', Hdrawn; f_equal; lia|].
           split; [|split; assumption].
           rewrite Hl'. destruct j; reflexivity.
    + pose proof (_do_build_step_keeps _ _ _ _ _ _ _ Hstep)
        as (Hsame & (new & Hcalls & Hnew) & Hbuff).
      apply _do_build_step_pass in Hstep as (_ & _ & _ & _ & w0 & s1 & w2 & Hraise).
      injection H as <- <-. split; [exact Hsame|]. split; [|split; [intros _; exact Hbuff|split]].
      * exists new. split; [exact Hcalls|].
        eapply Forall_impl; [exact Hnew|]. intros call Hc. exists step.
        split; [apply elem_of_cons; left; reflexivity|exact Hc].
      * intros e' He. injection He as <-. exists step, w0, s1, w2.
        split; [apply elem_of_cons; left; reflexivity|exact Hraise].
      * intros v' Hv. discriminate.
Qed.

(** ** A whole build *)

Lemma Builder__do_build_keeps env w r w' :
  Builder__do_build env w = (r, w') →
  same_settings (self w) (self w')
  ∧ (∃ new, shell_calls w' = (new ++ shell_calls w)%list
            ∧ Forall (λ call, ∃ step, step ∈ steps (self w)
                                ∧ step_call env (self w) step call) new)
  ∧ (steps (self w) ≠ [] →
       _step_output_buff (self w') = [] ∧ _current_step_output_buff_len (self w') = 0)
  ∧ (∀ e, r = Raise e →
       ∃ step w0 s1 w1, step ∈ steps (self w)
         ∧ get_command env (step, w0) = (Raise e, (s1, w1)))
  ∧ (∀ bi, r = Ok bi →
       bi_total_steps bi = Some (length (steps (self w)))
       ∧ uuid_calls w' = uuid_calls w + length (bi_steps bi)
       ∧ ∀ j info, bi_steps bi !! j = Some info →
           ∃ step, steps (self w) !! j = Some step
             ∧ si_uuid info = uuid4 env (uuid_calls w + j)
             ∧ si_last_step_status info =
                 match j with
                 | 0 => None
                 | S j' => si_status <$> bi_steps bi !! j'
                 end
             ∧ terminal (si_status info)
             ∧ (warning_on_fail step = true →
                  si_status info ≠ fail ∧ si_status info ≠ exception)).
Proof.
  unfold Builder__do_build. rewrite bind_run, send_info_run. cbv iota beta.
  rewrite bind_run. unfold get_builder at 1. rewrite bind_run. unfold get_state at 1.
  cbv iota beta. unfold mret at 1, Eff_ret. cbn [self]. rewrite bind_run.
  destruct (_do_build_loop env 0 (steps (self w)) _ _) as [[v|e] w1] eqn:Hloop;
    apply _do_build_loop_keeps in Hloop as (Hsame & Hcalls & Hclear & Hraise & Hok);
    cbn [self sent shell_calls uuid_calls lv_steps last_step_status] in *;
    intros H; injection H as <- <-;
    (split; [exact Hsame|]); (split; [exact Hcalls|]); (split; [exact Hclear|]);
    (split; [intros e' He'; try discriminate; injection He' as <-; apply Hraise; reflexivity|]);
    intros bi Hbi; [|discriminate].
  injection Hbi as <-. cbn [bi_total_steps bi_steps].
  destruct (Hok v eq_refl) as (infos & Hsteps & Hu & Hinfos). cbn [app] in Hsteps.
  destruct Hsame as (_ & _ & _ & _ & _ & _ & _ & _ & Hlen).
  rewrite Hsteps, Hlen. split; [reflexivity|]. split; [exact Hu|exact Hinfos].
Qed.


(** ** The workspace of a build *)

Lemma exec_cmd_plain env cmd cwd t envvars w :
  exec_cmd env cmd cwd t None envvars w =
    (outcome_result (run_outcome (shell env (shell_calls w) (mkShellCall cmd cwd t envvars))),
     record_call (mkShellCall cmd cwd t envvars) w).
Proof.
  rewrite exec_cmd_run. cbv zeta. cbn [feed]. unfold mret, Eff_ret.
  destruct (run_outcome _); reflexivity.
Qed.

Lemma copy_workdir_run env w :
  Builder__copy_workdir env w =
    match outcome_result (run_outcome (shell env (shell_calls w) (mkdir_call env (self w)))) with
    | Raise e => (Raise e, record_call (mkdir_call env (self w)) w)
    | Ok _ =>
        match outcome_result
                (run_outcome (shell env (mkdir_call env (self w) :: shell_calls w)
                                (cp_call env (self w)))) with
        | Raise e =>
            (Raise e, record_call (cp_call env (self w))
                        (record_call (mkdir_call env (self w)) w))
        | Ok _ =>
            (Ok tt, record_call (cp_call env (self w))
                      (record_call (mkdir_call env (self w)) w))
        end
    end.
Proof.
  unfold Builder__copy_workdir. rewrite bind_run.
  change (Builder__get_tmp_dir env w) with (@Ok string (tmp_dir env (self w)), w).
  cbv iota beta zeta. rewrite bind_run, exec_cmd_plain. fold (mkdir_call env (self w)).
  destruct (outcome_result _) as [o|e]; [|reflexivity].
  rewrite bind_run. unfold get_builder at 1. rewrite bind_run. unfold get_state at 1.
  cbv iota beta. unfold mret at 1, Eff_ret. cbn [self record_call].
  rewrite bind_run, exec_cmd_plain. cbn [self shell_calls record_call].
  fold (tmp_dir env (self w)). fold (cp_call env (self w)).
  destruct (outcome_result _) as [o'|e]; reflexivity.
Qed.

Lemma remove_tmp_dir_run env w :
  Builder__remove_tmp_dir env w =
    (match outcome_result (run_outcome (shell env (shell_calls w) (rm_call env (self w)))) with
     | Raise e => Raise e
     | Ok _ => Ok tt
     end, record_call (rm_call env (self w)) w).
Proof.
  unfold Builder__remove_tmp_dir. rewrite bind_run.
  change (Builder__get_tmp_dir env w) with (@Ok string (tmp_dir env (self w)), w).
  cbv iota beta zeta. rewrite bind_run, exec_cmd_plain. fold (rm_call env (self w)).
  destruct (outcome_result _) as [o|e]; reflexivity.
Qed.

Lemma copy_workdir_self env w r w0 :
  Builder__copy_workdir env w = (r, w0) → self w0 = self w.
Proof.
  rewrite copy_workdir_run. intros H.
  destruct (outcome_result _) as [o|e]; [destruct (outcome_result _) as [o'|e]|];
    injection H as <- <-; reflexivity.
Qed.

Lemma rm_call_settings env b b' : same_settings b b' → rm_call env b' = rm_call env b.
Proof.
  intros (_ & Hname & Hwd & _). unfold rm_call, tmp_dir. rewrite Hname, Hwd. reflexivity.
Qed.

(** X1: When the workdir cannot be copied, [Builder.build] raises what the
    shell raised: the manager is sent nothing, no step runs, no uuid is
    drawn, and the temporary directory is not removed, though [mkdir]
    may have made it. *)
Theorem Builder_build_copy_failure (env : Env) (w : RunState) (e : pyexc) (w0 : RunState) :
  Builder__copy_workdir env w = (Raise e, w0) →
  Builder_build env w = (Raise e, w0)
  ∧ self w0 = self w ∧ sent w0 = sent w ∧ uuid_calls w0 = uuid_calls w
  ∧ (shell_calls w0 = mkdir_call env (self w) :: shell_calls w
     ∨ shell_calls w0 = cp_call env (self w) :: mkdir_call env (self w) :: shell_calls w).
Proof.
  intros H. split.
  - unfold Builder_build, async_with, Builder__aenter__. rewrite H. reflexivity.
  - rewrite copy_workdir_run in H.
    destruct (outcome_result _) as [o|e1]; [destruct (outcome_result _) as [o'|e1]|];
      try discriminate; injection H as <- <-; cbn [self sent uuid_calls shell_calls record_call];
      repeat split; try reflexivity; [right|left]; reflexivity.
Qed.

Lemma Builder_build_copy_failure_witness :
  ∃ b e w0,
    built no_copy_env 0 quiet_conf ∅ = Ok b
    ∧ Builder__copy_workdir no_copy_env (fresh b) = (Raise e, w0)
    ∧ Builder_build no_copy_env (fresh b) = (Raise e, w0)
    ∧ sent w0 = []
    ∧ e = ExecCmdError "cp: cannot stat 'src/*': No such file or directory".
Proof.
  eexists _, _, _. split; [vm_compute; reflexivity|].
  match goal with |- ?A ∧ _ => assert A as H by (vm_compute; reflexivity) end.
  split; [exact H|].
  split; [exact (proj1 (Builder_build_copy_failure no_copy_env _ _ _ H))|].
  split; [exact (proj1 (proj2 (proj2 (Builder_build_copy_failure no_copy_env _ _ _ H))))|].
  reflexivity.
Defined.

(** X2: With [remove_env], once the workdir is copied [Builder.build] ends
    with [rm -rf] on the temporary directory, whether [_do_build] returned
    or raised; if the removal fails, its exception is what [build]
    raises, also when the steps had returned a [build_info]. *)
Theorem Builder_build_cleans_up (env : Env) (w w0 : RunState) (r1 : result BuildInfo)
    (w1 : RunState) :
  Builder__copy_workdir env w = (Ok tt, w0) →
  remove_env (self w) = true →
  Builder__do_build env w0 = (r1, w1) →
  Builder_build env w =
    (match outcome_result
             (run_outcome (shell env (shell_calls w1) (rm_call env (self w)))) with
     | Ok _ => r1
     | Raise e => Raise e
     end,
     record_call (rm_call env (self w)) w1).
Proof.
  intros Hcopy Hrm Hbuild.
  pose proof (copy_workdir_self _ _ _ _ Hcopy) as Hself.
  pose proof (Builder__do_build_keeps _ _ _ _ Hbuild) as [Hsame _].
  rewrite Hself in Hsame.
  unfold Builder_build, async_with, Builder__aenter__. rewrite Hcopy, Hbuild.
  unfold Builder__aexit__. rewrite bind_run. unfold get_builder at 1. rewrite bind_run.
  unfold get_state at 1. cbv iota beta. unfold mret at 1, Eff_ret.
  pose proof Hsame as (H1 & H2 & H3 & H4 & H5 & H6 & H7). rewrite H6, Hrm.
  rewrite remove_tmp_dir_run, (rm_call_settings env (self w) (self w1) Hsame).
  destruct (outcome_result _); reflexivity.
Qed.

Lemma Builder_build_cleans_up_witness :
  ∃ b w0 bi w1,
    built sample_env 0 lint_test_conf ∅ = Ok b
    ∧ Builder__copy_workdir sample_env (fresh b) = (Ok tt, w0)
    ∧ remove_env (self (fresh b)) = true
    ∧ Builder__do_build sample_env w0 = (Ok bi, w1)
    ∧ Builder_build sample_env (fresh b) =
        (Ok bi, record_call (rm_call sample_env b) w1).
Proof.
  eexists _, _, _, _. split; [vm_compute; reflexivity|].
  match goal with |- ?A ∧ _ => assert A as H by (vm_compute; reflexivity) end.
  split; [exact H|].
  match goal with |- ?A ∧ _ => assert A as H1 by reflexivity end.
  split; [exact H1|].
  match goal with |- ?A ∧ _ => assert A as H2 by (vm_compute; reflexivity) end.
  split; [exact H2|].
  exact (Builder_build_cleans_up sample_env _ _ _ _ H H1 H2).
Defined.

(** X3: Without [remove_env], [Builder.build] is [_do_build] run after the
    copy: same result, same final state, and so no call of the shell
    after the last step. *)
Theorem Builder_build_keeps_workspace (env : Env) (w w0 : RunState) :
  Builder__copy_workdir env w = (Ok tt, w0) →
  remove_env (self w) = false →
  Builder_build env w = Builder__do_build env w0.
Proof.
  intros Hcopy Hrm.
  pose proof (copy_workdir_self _ _ _ _ Hcopy) as Hself.
  unfold Builder_build, async_with, Builder__aenter__. rewrite Hcopy.
  destruct (Builder__do_build env w0) as [r1 w1] eqn:Hbuild.
  pose proof (Builder__do_build_keeps _ _ _ _ Hbuild) as [Hsame _].
  rewrite Hself in Hsame.
  unfold Builder__aexit__. rewrite bind_run. unfold get_builder at 1. rewrite bind_run.
  unfold get_state at 1. cbv iota beta. unfold mret at 1, Eff_ret.
  destruct Hsame as (H1 & H2 & H3 & H4 & H5 & H6 & H7). rewrite H6, Hrm.
  reflexivity.
Qed.

Lemma Builder_build_keeps_workspace_witness :
  ∃ b w0,
    kept sample_env 0 quiet_conf ∅ = Ok b
    ∧ Builder__copy_workdir sample_env (fresh b) = (Ok tt, w0)
    ∧ remove_env (self (fresh b)) = false
    ∧ Builder_build sample_env (fresh b) = Builder__do_build sample_env w0.
Proof.
  eexists _, _. split; [vm_compute; reflexivity|].
  match goal with |- ?A ∧ _ => assert A as H by (vm_compute; reflexivity) end.
  split; [exact H|].
  match goal with |- ?A ∧ _ => assert A as H1 by reflexivity end.
  split; [exact H1|].
  exact (Builder_build_keeps_workspace sample_env _ _ H H1).
Defined.

(** ** What a build reports *)



(** X5: Each [step_info] of a returned build carries in [last_step_status]
    the final status of the step executed before it; the first one
    carries [None]. *)
Theorem last_step_status_is_the_previous_status (env : Env) (w : RunState)
    (bi : BuildInfo) (w' : RunState) :
  Builder__do_build env w = (Ok bi, w') →
  ∀ j info, bi_steps bi !! j = Some info →
    si_last_step_status info =
      match j with
      | 0 => None
      | S j' => si_status <$> bi_steps bi !! j'
      end.
Proof.
  intros H j info Hj. apply Builder__do_build_keeps in H as (_ & _ & _ & _ & Hok).
  destruct (Hok bi eq_refl) as (_ & _ & Hinfos).
  destruct (Hinfos j info Hj) as (step & _ & _ & Hlast & _). exact Hlast.
Qed.

Lemma last_step_status_is_the_previous_status_witness :
  ∃ b bi w' info,
    built sample_env 0 lint_test_conf ∅ = Ok b
    ∧ Builder__do_build sample_env (fresh b) = (Ok bi, w')
    ∧ bi_steps bi !! 1 = Some info
    ∧ si_last_step_status info = Some warning.
Proof.
  eexists _, _, _, _. split; [vm_compute; reflexivity|].
  match goal with |- ?A ∧ _ => assert A as H by (vm_compute; reflexivity) end.
  split; [exact H|].
  match goal with |- ?A ∧ _ => assert A as H1 by (vm_compute; reflexivity) end.
  split; [exact H1|].
  exact (last_step_status_is_the_previous_status sample_env _ _ _ H 1 _ H1).
Defined.

(** X6: The steps of a returned build have each the uuid of a draw of its
    own, in the order of the steps: when [uuid4] never repeats itself, no
    two executed steps share a uuid. *)
Theorem step_uuids_are_distinct (env : Env) (w : RunState) (bi : BuildInfo)
    (w' : RunState) :
  (∀ m n, uuid4 env m = uuid4 env n → m = n) →
  Builder__do_build env w = (Ok bi, w') →
  uuid_calls w' = uuid_calls w + length (bi_steps bi)
  ∧ NoDup (si_uuid <$> bi_steps bi).
Proof.
  intros Hinj H. apply Builder__do_build_keeps in H as (_ & _ & _ & _ & Hok).
  destruct (Hok bi eq_refl) as (_ & Hu & Hinfos). split; [exact Hu|].
  apply NoDup_alt. intros i j uuid Hi Hj.
  rewrite list_lookup_fmap in Hi, Hj.
  destruct (bi_steps bi !! i) as [info|] eqn:Ei; [|discriminate].
  destruct (bi_steps bi !! j) as [info'|] eqn:Ej; [|discriminate].
  injection Hi as Hi. injection Hj as Hj.
  destruct (Hinfos i info Ei) as (_ & _ & Hui & _).
  destruct (Hinfos j info' Ej) as (_ & _ & Huj & _).
  rewrite Hui in Hi. rewrite Huj in Hj. rewrite <- Hj in Hi.
  apply Hinj in Hi. lia.
Qed.

Lemma str_int_inj (m n : Z) : Py.str_int m = Py.str_int n → m = n.
Proof.
  unfold Py.str_int. intros H. apply (f_equal NilEmpty.int_of_string) in H.
  rewrite !NilEmpty.isi in H. injection H as H.
  apply (f_equal Z.of_int) in H. rewrite !DecimalZ.of_to in H. exact H.
Qed.

Lemma env_of_uuid4_inj runs file_exists (m n : nat) :
  uuid4 (env_of runs file_exists) m = uuid4 (env_of runs file_exists) n → m = n.
Proof.
  cbn [uuid4 env_of]. intros H. injection H as H. apply str_int_inj in H. lia.
Qed.

Lemma step_uuids_are_distinct_witness :
  ∃ b bi w',
    built sample_env 0 lint_test_conf ∅ = Ok b
    ∧ (∀ m n, uuid4 sample_env m = uuid4 sample_env n → m = n)
    ∧ Builder__do_build sample_env (fresh b) = (Ok bi, w')
    ∧ uuid_calls w' = 2
    ∧ NoDup (si_uuid <$> bi_steps bi).
Proof.
  eexists _, _, _. split; [vm_compute; reflexivity|].
  split; [exact (env_of_uuid4_inj sample_runs _)|].
  match goal with |- ?A ∧ _ => assert A as H by (vm_compute; reflexivity) end.
  split; [exact H|].
  exact (step_uuids_are_distinct sample_env _ _ _ (env_of_uuid4_inj sample_runs _) H).
Defined.

(** X7: No [step_info] of a returned build is left running, and a step with
    [warning_on_fail] is never reported as fail or exception. *)
Theorem reported_statuses_are_final (env : Env) (w : RunState) (bi : BuildInfo)
    (w' : RunState) :
  Builder__do_build env w = (Ok bi, w') →
  ∀ j info step,
    bi_steps bi !! j = Some info →
    steps (self w) !! j = Some step →
    si_status info ≠ running
    ∧ (warning_on_fail step = true →
         si_status info ≠ fail ∧ si_status info ≠ exception).
Proof.
  intros H j info step Hj Hstep. apply Builder__do_build_keeps in H as (_ & _ & _ & _ & Hok).
  destruct (Hok bi eq_refl) as (_ & _ & Hinfos).
  destruct (Hinfos j info Hj) as (step' & Hstep' & _ & _ & Hterm & Hwarn).
  rewrite Hstep in Hstep'. injection Hstep' as <-. split; assumption.
Qed.

Lemma reported_statuses_are_final_witness :
  ∃ b bi w' info step,
    built sample_env 0 lint_test_conf ∅ = Ok b
    ∧ Builder__do_build sample_env (fresh b) = (Ok bi, w')
    ∧ bi_steps bi !! 0 = Some info
    ∧ steps (self (fresh b)) !! 0 = Some step
    ∧ warning_on_fail step = true
    ∧ si_status info = warning
    ∧ si_status info ≠ running
    ∧ (warning_on_fail step = true →
         si_status info ≠ fail ∧ si_status info ≠ exception).
Proof.
  eexists _, _, _, _, _. split; [vm_compute; reflexivity|].
  match goal with |- ?A ∧ _ => assert A as H by (vm_compute; reflexivity) end.
  split; [exact H|].
  match goal with |- ?A ∧ _ => assert A as H1 by (vm_compute; reflexivity) end.
  split; [exact H1|].
  match goal with |- ?A ∧ _ => assert A as H2 by (vm_compute; reflexivity) end.
  split; [exact H2|].
  split; [reflexivity|]. split; [reflexivity|].
  exact (reported_statuses_are_final sample_env _ _ _ H 0 _ _ H1 H2).
Defined.



Lemma first_non_success_success statuses :
  first_non_success statuses = Some success → Forall (λ status, status = success) statuses.
Proof.
  induction statuses as [|s rest IH]; cbn [first_non_success]; [discriminate|].
  destruct (decide (s = success)) as [->|Hne].
  - rewrite bool_decide_eq_true_2 by reflexivity. intros H. constructor; [reflexivity|].
    destruct (first_non_success rest) as [status|] eqn:E.
    + apply IH. exact H.
    + destruct rest as [|s' rest']; [constructor|]. cbn [first_non_success] in E.
      destruct (bool_decide (s' = success)); [destruct (first_non_success rest')|];
        discriminate.
  - rewrite bool_decide_eq_false_2 by exact Hne. intros H. congruence.
Qed.

Lemma first_non_success_none statuses : first_non_success statuses = None → statuses = [].
Proof.
  destruct statuses as [|s rest]; [reflexivity|]. cbn [first_non_success].
  destruct (bool_decide (s = success)); [destruct (first_non_success rest)|]; discriminate.
Qed.

Lemma loop_runs_all_success index todo runs :
  loop_runs index todo runs →
  Forall (λ run, run_status run = success) runs →
  length runs = length todo.
Proof.
  induction 1 as [index|index step rest run Hst Hstop
                 |index step rest run runs Hst Hstop Hruns IH]; intros Hall.
  - reflexivity.
  - apply Forall_cons in Hall as [Hs _]. rewrite Hs in Hstop. discriminate.
  - apply Forall_cons in Hall as [_ Hall]. cbn [length]. f_equal. apply IH, Hall.
Qed.

(** X9: A build whose status is success has executed every step of the
    builder and every step ended with success; a build has no status
    exactly when the builder has no steps. [total_steps] counts the steps
    of the builder, executed or not. *)
Theorem successful_build_ran_every_step (env : Env) (w : RunState) (bi : BuildInfo)
    (w' : RunState) :
  Builder__do_build env w = (Ok bi, w') →
  bi_total_steps bi = Some (length (steps (self w)))
  ∧ (bi_status bi = None ↔ steps (self w) = [])
  ∧ (bi_status bi = Some success →
       length (bi_steps bi) = length (steps (self w))
       ∧ Forall (λ info, si_status info = success) (bi_steps bi)).
Proof.
  intros H.
  apply Builder__do_build_passes in H as (runs & new & _ & _ & _ & Hok).
  destruct (Hok bi eq_refl) as [Hruns ->]. cbn [bi_steps bi_status bi_total_steps].
  rewrite fold_next_none. split; [reflexivity|]. split; [split|].
  - intros Hnone. apply first_non_success_none in Hnone.
    destruct runs; [|discriminate]. inversion Hruns. reflexivity.
  - intros Hnil. rewrite Hnil in Hruns. inversion Hruns. reflexivity.
  - intros Hs. apply first_non_success_success in Hs.
    rewrite Forall_fmap in Hs. rewrite length_map. split.
    + apply (loop_runs_all_success _ _ _ Hruns). exact Hs.
    + rewrite Forall_fmap. exact Hs.
Qed.

Lemma successful_build_ran_every_step_witness :
  ∃ b bi w',
    built sample_env 0 seq_conf ∅ = Ok b
    ∧ Builder__do_build sample_env (fresh b) = (Ok bi, w')
    ∧ bi_status bi = Some success
    ∧ bi_total_steps bi = Some 1
    ∧ (bi_status bi = None ↔ steps (self (fresh b)) = [])
    ∧ (bi_status bi = Some success →
         length (bi_steps bi) = 1
         ∧ Forall (λ info, si_status info = success) (bi_steps bi)).
Proof.
  eexists _, _, _. split; [vm_compute; reflexivity|].
  match goal with |- ?A ∧ _ => assert A as H by (vm_compute; reflexivity) end.
  split; [exact H|]. split; [reflexivity|].
  exact (successful_build_ran_every_step sample_env _ _ _ H).
Defined.

(** ** An [AptInstallStep] executed before its command is chosen *)

(** X10: [execute] on an [AptInstallStep] that has not chosen its command
    runs the package count inside its [try]: when the count fails, times
    out or is cancelled, [execute] answers as if the install command had
    (fail with the output of the count, exception with the install
    command and the timeout of the step in the message, cancelled),
    without running it; when the count prints no number, [execute]
    raises [ValueError]. In each case the step is left as it was, so the
    next call counts again. *)
Theorem AptInstallStep_execute_probe_failure (env : Env) (s : BuildStep)
    (packages : list string) (c : option string) (cwd : string)
    (out_fn : option (nat → string → Run unit))
    (lss : option Status) (lso : option StepStatus) (envvars : gmap string string)
    (w : RunState) :
  step_class s = CAptInstallStep packages c →
  is_set c = false →
  match run_outcome (shell env (shell_calls w) (dpkg_probe packages)) with
  | Returned out =>
      Py.int out = None →
      execute env cwd out_fn lss lso envvars (s, w) =
        (Raise ValueError, (s, record_call (dpkg_probe packages) w))
  | o =>
      execute env cwd out_fn lss lso envvars (s, w) =
        (Ok (outcome_status s o), (s, record_call (dpkg_probe packages) w))
  end.
Proof.
  intros E Hc.
  pose proof (get_command_probe env s packages c w E Hc) as Hg. revert Hg.
  destruct (run_outcome _) as [out|out| |]; intros Hg; [intros Hint; rewrite Hint in Hg|..];
    unfold execute; rewrite bind_run; unfold get_self at 1; cbn [fst]; rewrite E;
    unfold BuildStep_execute; rewrite bind_run; unfold try_except; rewrite bind_run, Hg;
    [reflexivity|..]; cbv iota beta;
    repeat first [rewrite bind_run | progress (unfold get_self at 1; cbn [fst])
                 | progress (unfold mret at 1, Eff_ret; cbv iota beta)];
    cbn [outcome_status fst]; destruct (warning_on_fail s); reflexivity.
Qed.

Lemma AptInstallStep_execute_probe_failure_witness :
  let s := AptInstallStep__init__ ["vim"] 600 in
  let w := fresh idle_builder in
  step_class s = CAptInstallStep ["vim"] None
  ∧ is_set None = false
  ∧ execute no_dpkg_env "/var/slave/src-b1" None None None ∅ (s, w) =
      (Ok (mkStepStatus fail "sudo: dpkg: command not found"),
       (s, record_call (dpkg_probe ["vim"]) w)).
Proof.
  intros s w. split; [reflexivity|]. split; [reflexivity|].
  exact (AptInstallStep_execute_probe_failure no_dpkg_env s ["vim"] None
           "/var/slave/src-b1" None None None ∅ w eq_refl eq_refl).
Defined.

(** ** What [_load_plugins] does to the configuration *)

Lemma _load_plugins_loop_step env r rest plist h ps h' :
  _load_plugins_loop env (r :: rest) plist h = (Ok ps, h') →
  ∃ plugin,
    loads_as env h r plugin
    ∧ _load_plugins_loop env rest (plist ++ [plugin])
        (<[r := delete "name" (default ∅ (h !! r))]> h) = (Ok ps, h').
Proof.
  cbn [_load_plugins_loop]. unfold try_except, deref, getitem, delitem. eff_unfold.
  destruct (default ∅ (h !! r) !! "name") as [v|] eqn:Hname; simpl; [|discriminate].
  destruct (get_plugin env v) as [cls|] eqn:Hcls; simpl; [|discriminate].
  rewrite Hname. simpl. rewrite lookup_insert_eq. simpl.
  destruct (new_plugin cls _) as [plugin|e] eqn:Hnew; [|discriminate].
  intros H. exists plugin. split; [|exact H].
  exists v, cls. repeat split; assumption.
Qed.

Lemma _load_plugins_loop_spec env l : ∀ plist h ps h',
  _load_plugins_loop env l plist h = (Ok ps, h') →
  NoDup l
  ∧ (∀ r, r ∉ l → h' !! r = h !! r)
  ∧ (∀ r, r ∈ l → h' !! r = Some (delete "name" (default ∅ (h !! r))))
  ∧ ∃ new, ps = (plist ++ new)%list
           ∧ length new = length l
           ∧ ∀ i r plugin, l !! i = Some r → new !! i = Some plugin → loads_as env h r plugin.
Proof.
  induction l as [|r rest IH]; intros plist h ps h' H.
  - injection H as <- <-. split; [constructor|]. split; [reflexivity|].
    split; [intros r Hr; apply elem_of_nil in Hr; contradiction|].
    exists []. rewrite app_nil_r. split; [reflexivity|]. split; [reflexivity|].
    intros i r plugin Hi. discriminate.
  - apply _load_plugins_loop_step in H as (plugin & Hload & H).
    apply IH in H as (Hnodup & Hout & Hin & new & -> & Hlen & Hnew).
    assert (r ∉ rest) as Hfresh.
    { intros Hr. apply list_elem_of_lookup in Hr as [i Hi].
      destruct (lookup_lt_is_Some_2 new i) as [p Hp].
      { rewrite Hlen. eapply lookup_lt_Some, Hi. }
      destruct (Hnew i r p Hi Hp) as (v & _ & Hname & _).
      rewrite lookup_insert_eq in Hname. simpl in Hname.
      rewrite lookup_delete_eq in Hname. discriminate. }
    split; [constructor; assumption|]. split; [|split].
    + intros r' Hr'. rewrite Hout by (intros Hx; apply Hr'; apply elem_of_cons; right; exact Hx).
      apply lookup_insert_ne. intros ->. apply Hr'. apply elem_of_cons. left. reflexivity.
    + intros r' Hr'. apply elem_of_cons in Hr' as [->|Hr'].
      * rewrite Hout by exact Hfresh. apply lookup_insert_eq.
      * rewrite (Hin r' Hr'). rewrite lookup_insert_ne by (intros ->; contradiction).
        reflexivity.
    + exists (plugin :: new). rewrite <- app_assoc. split; [reflexivity|].
      split; [cbn [length]; f_equal; exact Hlen|].
      intros [|i] r' p Hi Hp.
      * injection Hi as <-. injection Hp as <-. exact Hload.
      * cbn in Hi, Hp. destruct (Hnew i r' p Hi Hp) as (v & cls & Hname & Hcls & Hnewp).
        assert (r' ≠ r) as Hne.
        { intros ->. apply Hfresh. eapply list_elem_of_lookup_2, Hi. }
        rewrite lookup_insert_ne in Hname, Hnewp by congruence.
        exists v, cls. repeat split; assumption.
Qed.

(** X11: A [_load_plugins] that went through has taken the key [name], and
    nothing else, out of every dict the configuration lists, and has
    touched no other dict; the dicts listed are pairwise distinct
    objects; the plugins are those the dicts load as, in the order of the
    list. *)
Theorem load_plugins_strips_only_the_names (env : Env) (bconf : BuilderConf)
    (h h' : Heap) (ps : list Plugin) :
  Builder__load_plugins env bconf h = (Ok ps, h') →
  let plugins_config := default [] (conf_plugins bconf) in
  NoDup plugins_config
  ∧ (∀ r, r ∉ plugins_config → h' !! r = h !! r)
  ∧ (∀ r, r ∈ plugins_config → h' !! r = Some (delete "name" (default ∅ (h !! r))))
  ∧ Forall2 (loads_as env h) plugins_config ps.
Proof.
  intros H plugins_config. unfold Builder__load_plugins in H.
  apply _load_plugins_loop_spec in H as (Hnodup & Hout & Hin & new & -> & Hlen & Hnew).
  split; [exact Hnodup|]. split; [exact Hout|]. split; [exact Hin|].
  cbn [app]. apply Forall2_same_length_lookup. split; [symmetry; exact Hlen|exact Hnew].
Qed.

Lemma load_plugins_strips_only_the_names_witness :
  ∃ ps h',
    Builder__load_plugins sample_env apt_conf apt_heap = (Ok ps, h')
    ∧ NoDup (default [] (conf_plugins apt_conf))
    ∧ (∀ r, r ∉ default [] (conf_plugins apt_conf) → h' !! r = apt_heap !! r)
    ∧ (∀ r, r ∈ default [] (conf_plugins apt_conf) →
         h' !! r = Some (delete "name" (default ∅ (apt_heap !! r))))
    ∧ Forall2 (loads_as sample_env apt_heap) (default [] (conf_plugins apt_conf)) ps.
Proof.
  destruct (Builder__load_plugins sample_env apt_conf apt_heap) as [r h'] eqn:H.
  eassert (r = Ok _) as Hr.
  { change r with (r, h').1. rewrite <- H. vm_compute. reflexivity. }
  rewrite Hr in H. rewrite Hr. eexists _, h'. split; [reflexivity|].
  exact (load_plugins_strips_only_the_names sample_env apt_conf apt_heap _ _ H).
Defined.






(** ** The steps of a builder *)

Lemma _get_steps_loop_spec confs : ∀ acc steps,
  _get_steps_loop confs acc = Ok steps →
  ∃ user,
    steps = (acc ++ user)%list
    ∧ Forall2 (λ sconf step, BuildStep_of_dict (step_kwargs sconf) = Ok step) confs user.
Proof.
  induction confs as [|sconf rest IH]; intros acc steps H.
  - injection H as <-. exists []. rewrite app_nil_r. split; [reflexivity|constructor].
  - cbn [_get_steps_loop] in H. fold (step_kwargs sconf) in H.
    destruct (BuildStep_of_dict (step_kwargs sconf)) as [step|e] eqn:Hstep; [|discriminate].
    apply IH in H as (user & -> & Huser). exists (step :: user).
    rewrite <- app_assoc. split; [reflexivity|]. constructor; assumption.
Qed.

Lemma BuildStep_of_dict_class sdict step :
  BuildStep_of_dict sdict = Ok step → step_class step = CBuildStep.
Proof.
  unfold BuildStep_of_dict. intros H. repeat case_match; try discriminate.
  injection H as <-. reflexivity.
Qed.

Lemma Builder__init__steps env T bconf workdir platform remove_env envvars h b h' :
  Builder__init__ env T bconf workdir platform remove_env envvars h = (Ok b, h') →
  conf b = bconf
  ∧ Builder__load_plugins env bconf h = (Ok (plugins b), h')
  ∧ Builder__get_steps env bconf (plugins b) = Ok (steps b).
Proof.
  unfold Builder__init__.
  destruct (conf_name bconf) as [name|]; [|discriminate].
  rewrite bind_run.
  destruct (Builder__load_plugins env bconf h) as [[ps|e] h1]; [|discriminate].
  rewrite bind_run. unfold lift_result.
  destruct (Builder__get_steps env bconf ps) as [ss|e] eqn:Hsteps; [|discriminate].
  intros H. injection H as <- <-. cbn [conf plugins steps].
  split; [reflexivity|]. split; [reflexivity|exact Hsteps].
Qed.

Lemma Builder_steps_layout_aux (env : Env) (T : nat) (bconf : BuilderConf)
    (workdir platform : string) (remove_env : bool) (envvars : gmap string string)
    (h h' : Heap) (b : Builder) :
  Builder__init__ env T bconf workdir platform remove_env envvars h = (Ok b, h') →
  ∃ confs user,
    conf_steps bconf = Some confs
    ∧ steps b = (concat (map (get_steps_before env) (plugins b)) ++ user
                   ++ concat (map (get_steps_after env) (plugins b)))%list
    ∧ Forall2 (λ sconf step,
                 BuildStep_of_dict (step_kwargs sconf) = Ok step
                 ∧ step_class step = CBuildStep) confs user.
Proof.
  intros H. apply Builder__init__steps in H as (_ & _ & H).
  unfold Builder__get_steps in H.
  destruct (conf_steps bconf) as [confs|]; [|discriminate].
  destruct (_get_steps_loop confs _) as [ss|e] eqn:Hloop; [|discriminate].
  injection H as <-. apply _get_steps_loop_spec in Hloop as (user & -> & Huser).
  exists confs, user. split; [reflexivity|]. rewrite <- app_assoc. split; [reflexivity|].
  eapply Forall2_impl; [exact Huser|]. intros sconf step Hs.
  split; [exact Hs|]. eapply BuildStep_of_dict_class, Hs.
Qed.


(** X13: The steps of a builder are the steps its plugins put before, plugin
    after plugin, then the steps of the configuration in their order,
    each a plain [BuildStep] made from its keyword arguments, then the
    steps the plugins put after. *)
Theorem Builder_steps_layout (env : Env) (T : nat) (bconf : BuilderConf)
    (workdir platform : string) (remove_env : bool) (envvars : gmap string string)
    (h h' : Heap) (b : Builder) :
  Builder__init__ env T bconf workdir platform remove_env envvars h = (Ok b, h') →
  ∃ confs user,
    conf_steps bconf = Some confs
    ∧ steps b = (concat (map (get_steps_before env) (plugins b)) ++ user
                   ++ concat (map (get_steps_after env) (plugins b)))%list
    ∧ Forall2 (λ sconf step,
                 BuildStep_of_dict (step_kwargs sconf) = Ok step
                 ∧ step_class step = CBuildStep) confs user.
Proof.
  intros H. apply Builder_steps_layout_aux in H as (confs & user & Hconf & Hsteps & Huser).
  exists confs, user. split; [exact Hconf|]. split; [exact Hsteps|exact Huser].
Qed.

Lemma Builder_steps_layout_witness :
  ∃ b h',
    Builder__init__ sample_env 0 apt_conf "src" "linux-generic" true ∅ apt_heap = (Ok b, h')
    ∧ command <$> steps b =
        ["sudo apt-get update"; "sudo apt-get install -y git curl"; "test"]
    ∧ ∃ confs user,
        conf_steps apt_conf = Some confs
        ∧ steps b = (concat (map (get_steps_before sample_env) (plugins b)) ++ user
                       ++ concat (map (get_steps_after sample_env) (plugins b)))%list
        ∧ Forall2 (λ sconf step,
                     BuildStep_of_dict (step_kwargs sconf) = Ok step
                     ∧ step_class step = CBuildStep) confs user.
Proof.
  destruct (Builder__init__ sample_env 0 apt_conf "src" "linux-generic" true ∅ apt_heap)
    as [r h'] eqn:H.
  eassert (r = Ok _) as Hr.
  { change r with (r, h').1. rewrite <- H. vm_compute. reflexivity. }
  rewrite Hr in H. rewrite Hr. eexists _, h'. split; [reflexivity|]. split; [reflexivity|].
  exact (Builder_steps_layout sample_env 0 apt_conf "src" "linux-generic" true ∅
           apt_heap _ _ H).
Defined.

Lemma elem_of_concat {A} (x : A) (ls : list (list A)) :
  x ∈ concat ls → ∃ l, x ∈ l ∧ l ∈ ls.
Proof.
  induction ls as [|l ls IH]; cbn [concat]; intros H.
  - apply elem_of_nil in H. contradiction.
  - apply elem_of_app in H as [H|H].
    + exists l. split; [exact H|]. apply elem_of_cons. left. reflexivity.
    + destruct (IH H) as (l' & Hx & Hl'). exists l'. split; [exact Hx|].
      apply elem_of_cons. right. exact Hl'.
Qed.





(** ** The variables of a step *)

Lemma fold_env_vars_none env (k : string) plugins : ∀ acc,
  (∀ plugin, plugin ∈ plugins → get_env_vars env plugin !! k = None) →
  fold_left (λ envvars plugin, get_env_vars env plugin ∪ envvars) plugins acc !! k = acc !! k.
Proof.
  induction plugins as [|p rest IH]; intros acc Hnone; cbn [fold_left]; [reflexivity|].
  rewrite IH by (intros q Hq; apply Hnone; apply elem_of_cons; right; exact Hq).
  apply lookup_union_r. apply Hnone. apply elem_of_cons. left. reflexivity.
Qed.

(** X15: [_get_env_vars] answers the variables of the builder with those of
    its plugins written over them, and leaves the builder as it was: a
    variable no plugin sets keeps the value the builder was given, and a
    variable some plugin sets has the value of the last plugin that sets
    it, whatever the builder was given. *)
Theorem plugin_variables_override (env : Env) (w : RunState) :
  ∃ vars,
    Builder__get_env_vars env w = (Ok vars, w)
    ∧ (∀ k, (∀ plugin, plugin ∈ plugins (self w) → get_env_vars env plugin !! k = None) →
            vars !! k = envvars (self w) !! k)
    ∧ (∀ before plugin after k v,
         plugins (self w) = (before ++ plugin :: after)%list →
         get_env_vars env plugin !! k = Some v →
         (∀ later, later ∈ after → get_env_vars env later !! k = None) →
         vars !! k = Some v).
Proof.
  eexists. split; [reflexivity|]. split.
  - intros k Hnone. apply fold_env_vars_none, Hnone.
  - intros before plugin after k v Hps Hv Hafter. rewrite Hps, fold_left_app.
    cbn [fold_left]. rewrite fold_env_vars_none by exact Hafter.
    apply lookup_union_Some_l, Hv.
Qed.

Lemma plugin_variables_override_witness :
  ∃ b h' vars,
    Builder__init__ sample_env 0 apt_conf "src" "linux-generic" true
      {[ "DEBIAN_FRONTEND" := "dialog"; "HOME" := "/root" ]} apt_heap = (Ok b, h')
    ∧ Builder__get_env_vars sample_env (fresh b) = (Ok vars, fresh b)
    ∧ vars !! "HOME" = Some "/root"
    ∧ vars !! "DEBIAN_FRONTEND" = Some "noninteractive".
Proof.
  destruct (Builder__init__ sample_env 0 apt_conf "src" "linux-generic" true
              {[ "DEBIAN_FRONTEND" := "dialog"; "HOME" := "/root" ]} apt_heap)
    as [r h'] eqn:H.
  eassert (r = Ok _) as Hr.
  { change r with (r, h').1. rewrite <- H. vm_compute. reflexivity. }
  rewrite Hr. eexists _, h'.
  match goal with |- ∃ vars, (_, _) = (Ok ?b, _) ∧ _ =>
    destruct (plugin_variables_override sample_env (fresh b)) as (vars & Hrun & Hkeep & Hover)
  end.
  exists vars. split; [reflexivity|]. split; [exact Hrun|]. split.
  - rewrite Hkeep; [vm_compute; reflexivity|].
    intros plugin Hin. apply list_elem_of_singleton in Hin as ->. reflexivity.
  - apply (Hover [] _ [] "DEBIAN_FRONTEND" "noninteractive" eq_refl); [reflexivity|].
    intros later Hin. apply elem_of_nil in Hin. contradiction.
Defined.

(** ** Equality of steps *)

Section Padding.

Variable c : ascii.

Lemma only_char_lstrip pad s : only_char c pad = true → Py.lstrip c (pad ++ s) = Py.lstrip c s.
Proof.
  induction pad as [|a pad IH]; simpl; [reflexivity|].
  intros H. apply andb_prop in H as [Ha Hpad]. rewrite Ha. apply IH, Hpad.
Qed.

Lemma only_char_rstrip s : ∀ pad, only_char c pad = true → Py.rstrip c (s ++ pad) = Py.rstrip c s.
Proof.
  induction s as [|a s IH]; intros pad Hpad; simpl.
  - apply rstrip_empty_iff, Hpad.
  - rewrite IH by exact Hpad. reflexivity.
Qed.

Lemma lstrip_pad pad : only_char c pad = true → Py.lstrip c pad = "".
Proof.
  induction pad as [|a pad IH]; simpl; [reflexivity|].
  intros H. apply andb_prop in H as [Ha Hpad]. rewrite Ha. apply IH, Hpad.
Qed.

Lemma lstrip_app_pad s pad :
  only_char c pad = true →
  Py.lstrip c (s ++ pad) = Py.lstrip c s ++ pad ∨ Py.lstrip c (s ++ pad) = "" ∧ Py.lstrip c s = "".
Proof.
  intros Hpad. induction s as [|a s IH]; simpl.
  - right. split; [apply lstrip_pad, Hpad|reflexivity].
  - destruct (Ascii.eqb a c); [exact IH|]. left. reflexivity.
Qed.

Lemma strip_padding pad1 pad2 s :
  only_char c pad1 = true → only_char c pad2 = true →
  Py.strip c (pad1 ++ s ++ pad2) = Py.strip c s.
Proof.
  intros H1 H2. unfold Py.strip. rewrite only_char_lstrip by exact H1.
  destruct (lstrip_app_pad s pad2 H2) as [->|[-> ->]]; [|reflexivity].
  apply only_char_rstrip, H2.
Qed.

End Padding.

(** X16: Two steps are equal when their commands are, after the constructor
    has stripped them: names, classes, flags and timeouts are not
    compared, and spaces around a command make no difference. *)
Theorem BuildStep__eq__ignores_padding (cls1 cls2 : StepClass) (name1 name2 : string)
    (cmd pad1 pad2 : string) (wof1 wof2 : bool) (t1 t2 : Z) (sof1 sof2 : bool) :
  only_char " " pad1 = true →
  only_char " " pad2 = true →
  BuildStep__eq__ (BuildStep__init__ cls1 name1 (pad1 ++ cmd ++ pad2) wof1 t1 sof1)
    (BuildStep__init__ cls2 name2 cmd wof2 t2 sof2) = true.
Proof.
  intros H1 H2. unfold BuildStep__eq__, BuildStep__init__. cbn [command].
  rewrite strip_padding by assumption. apply String.eqb_refl.
Qed.

Lemma BuildStep__eq__ignores_padding_witness :
  only_char " " "  " = true
  ∧ only_char " " " " = true
  ∧ BuildStep__eq__ (new_BuildStep "unit tests" ("  " ++ "make test" ++ " ") true 60 true)
      (AptUpdateStep__init__ 600) = false
  ∧ BuildStep__eq__ (new_BuildStep "unit tests" ("  " ++ "make test" ++ " ") true 60 true)
      (new_BuildStep "tests" "make test" false 3600 false) = true.
Proof.
  split; [reflexivity|]. split; [reflexivity|]. split; [reflexivity|].
  apply (BuildStep__eq__ignores_padding CBuildStep CBuildStep "unit tests" "tests"
           "make test" "  " " " true false 60 3600 true false); reflexivity.
Defined.

(** ** The output buffer *)

Lemma string_length_app (a b : string) :
  String.length (a ++ b) = String.length a + String.length b.
Proof. induction a as [|x a IH]; simpl; [reflexivity|]. rewrite IH. reflexivity. Qed.

Lemma join_empty_cons (line : string) (buff : list string) :
  Py.join "" (line :: buff) = line ++ Py.join "" buff.
Proof.
  unfold Py.join. cbn [String.concat]. destruct buff as [|l buff]; [|reflexivity].
  cbn [String.concat]. clear.
  induction line as [|x line IH]; [reflexivity|].
  change (String x line = String x (line +:+ "")). f_equal. exact IH.
Qed.

Lemma len_join_snoc (buff : list string) (line : string) :
  Py.len (Py.join "" (buff ++ [line])) = Py.len (Py.join "" buff) + Py.len line.
Proof.
  unfold Py.len. induction buff as [|l buff IH]; [reflexivity|].
  cbn [app]. rewrite !join_empty_cons, !string_length_app, IH. lia.
Qed.

Lemma stream_buffer_ok T lines : ∀ buff buff_len,
  buff_len = Py.len (Py.join "" buff) → buff_len ≤ T →
  (stream T buff buff_len lines).2.2 = Py.len (Py.join "" (stream T buff buff_len lines).2.1)
  ∧ (stream T buff buff_len lines).2.2 ≤ T.
Proof.
  induction lines as [|line rest IH]; intros buff buff_len Hlen Hle; cbn [stream].
  - split; assumption.
  - destruct (T <? buff_len + Py.len line) eqn:E.
    + cbn [fst snd]. apply IH; [reflexivity|lia].
    + apply Nat.ltb_ge in E. apply IH; [|exact E].
      rewrite len_join_snoc, Hlen. reflexivity.
Qed.

(** X17: The counter of the output buffer is the length of the unsent text,
    and the unsent text is never longer than [STEP_OUTPUT_BUFF_LEN]:
    this holds for a builder as constructed, it still holds after any
    lines went through [_send_step_output_info], and after [_do_build],
    returned or raised. *)
Theorem output_buffer_stays_within_bound (env : Env) :
  (∀ T bconf workdir platform remove_env envvars h b h',
     Builder__init__ env T bconf workdir platform remove_env envvars h = (Ok b, h') →
     buffer_ok b)
  ∧ (∀ info lines k w,
       buffer_ok (self w) →
       ∃ w', feed_lines (Builder__send_step_output_info info) k lines w = (Ok tt, w')
             ∧ buffer_ok (self w'))
  ∧ (∀ w r w',
       buffer_ok (self w) →
       Builder__do_build env w = (r, w') →
       buffer_ok (self w')).
Proof.
  split; [|split].
  - intros T bconf workdir platform remove_env envvars h b h' H.
    unfold Builder__init__ in H.
    destruct (conf_name bconf) as [name|]; [|discriminate].
    rewrite bind_run in H.
    destruct (Builder__load_plugins env bconf h) as [[ps|e] h1]; [|discriminate].
    rewrite bind_run in H. unfold lift_result in H.
    destruct (Builder__get_steps env bconf ps) as [ss|e]; [|discriminate].
    injection H as <- _. split; [reflexivity|]. cbn. lia.
  - intros info lines k w [Hlen Hle]. eexists. split; [apply feed_lines_stream|].
    unfold buffer_ok.
    cbn [self with_output_buff _step_output_buff _current_step_output_buff_len
         STEP_OUTPUT_BUFF_LEN].
    apply stream_buffer_ok; assumption.
  - intros w r w' Hok H.
    destruct (steps (self w)) as [|step rest] eqn:Hsteps.
    + unfold Builder__do_build in H. rewrite bind_run, send_info_run in H.
      cbv iota beta in H. rewrite bind_run in H. unfold get_builder at 1 in H.
      rewrite bind_run in H. unfold get_state at 1 in H. cbv iota beta in H.
      unfold mret at 1, Eff_ret in H. cbn [self] in H. rewrite Hsteps in H.
      cbn in H. injection H as _ <-. exact Hok.
    + apply Builder__do_build_keeps in H as (Hsame & _ & Hclear & _).
      destruct Hclear as [Hbuff Hlen]; [rewrite Hsteps; discriminate|].
      unfold buffer_ok. rewrite Hbuff, Hlen. split; [reflexivity|lia].
Qed.

Lemma output_buffer_stays_within_bound_witness :
  ∃ b w1 w2 r,
    built sample_env 3 seq_conf ∅ = Ok b
    ∧ buffer_ok b
    ∧ feed_lines (Builder__send_step_output_info
                    (mkStepInfo running "seq 2" "seq 2" 0 "" "uuid-0" None))
        0 ["1"; "2"; "3"] (fresh b) = (Ok tt, w1)
    ∧ _step_output_buff (self w1) = ["1"; "2"; "3"]
    ∧ buffer_ok (self w1)
    ∧ Builder__do_build sample_env w1 = (r, w2)
    ∧ buffer_ok (self w2).
Proof.
  eexists _, _, _, _.
  match goal with |- ?A ∧ _ => assert A as H by (vm_compute; reflexivity) end.
  split; [exact H|].
  assert (Builder__init__ sample_env 3 seq_conf "src" "linux-generic" true ∅ ∅ =
            (Ok _, ∅)) as Hinit by (vm_compute; reflexivity).
  pose proof (proj1 (output_buffer_stays_within_bound sample_env) _ _ _ _ _ _ _ _ _ Hinit)
    as Hok.
  split; [exact Hok|].
  match goal with |- ?A ∧ _ => assert A as H1 by (vm_compute; reflexivity) end.
  split; [exact H1|]. split; [reflexivity|].
  destruct (proj1 (proj2 (output_buffer_stays_within_bound sample_env))
              (mkStepInfo running "seq 2" "seq 2" 0 "" "uuid-0" None)
              ["1"; "2"; "3"] 0 (fresh _) Hok) as (w1' & Hfeed & Hok1).
  rewrite H1 in Hfeed. injection Hfeed as <-.
  split; [exact Hok1|].
  match goal with |- ?A ∧ _ => assert A as H2 by (vm_compute; reflexivity) end.
  split; [exact H2|].
  exact (proj2 (proj2 (output_buffer_stays_within_bound sample_env)) _ _ _ Hok1 H2).
Defined.

(** ** One message for each line *)




(** ** The apt-install plugin *)

Lemma kwargs_ok_insert params required (kwargs : gmap string Py.value) key v :
  key ∈ params → kwargs_ok params required kwargs = true →
  kwargs_ok params required (<[key := v]> kwargs) = true.
Proof.
  unfold kwargs_ok. intros Hkey H. apply andb_prop in H as [Hdom Hreq].
  apply andb_true_intro. split.
  - apply bool_decide_eq_true in Hdom. apply bool_decide_eq_true.
    rewrite dom_insert. apply union_least; [|exact Hdom].
    apply singleton_subseteq_l, elem_of_list_to_set, Hkey.
  - rewrite forallb_forall in *. intros k Hk. specialize (Hreq k Hk).
    apply bool_decide_eq_true in Hreq. apply bool_decide_eq_true.
    destruct (decide (k = key)) as [->|Hne].
    + rewrite lookup_insert_eq. eexists. reflexivity.
    + rewrite lookup_insert_ne by congruence. exact Hreq.
Qed.

(** X19: The [timeout] given to the apt-install plugin has no effect: with
    any [timeout] in its dict the plugin is the one made without, and
    its two steps run with the timeout 600 of their defaults. *)
Theorem AptInstallPlugin_timeout_is_dropped (env : Env) (pdict : gmap string Py.value)
    (p : AptInstallPlugin) (t : Py.value) :
  AptInstallPlugin__init__ pdict = Ok p →
  AptInstallPlugin__init__ (<["timeout" := t]> pdict) = Ok p
  ∧ timeout <$> get_steps_before env (PAptInstall p) = [600%Z; 600%Z].
Proof.
  unfold AptInstallPlugin__init__. intros H. split; [|reflexivity].
  destruct (kwargs_ok ["packages"; "timeout"] ["packages"] pdict) eqn:Hk; [|discriminate].
  rewrite kwargs_ok_insert; [| |exact Hk].
  2: { apply elem_of_cons. right. apply elem_of_cons. left. reflexivity. }
  cbn [negb] in *. rewrite lookup_insert_ne by discriminate. exact H.
Qed.

Lemma AptInstallPlugin_timeout_is_dropped_witness :
  let pdict : gmap string Py.value := {[ "packages" := Py.VList ["git"; "curl"] ]} in
  let p := {| ap__data_dir := None; ap_packages := ["git"; "curl"] |} in
  AptInstallPlugin__init__ pdict = Ok p
  ∧ AptInstallPlugin__init__ (<["timeout" := Py.VInt 7200]> pdict) = Ok p
  ∧ timeout <$> get_steps_before sample_env (PAptInstall p) = [600%Z; 600%Z].
Proof.
  intros pdict p.
  assert (AptInstallPlugin__init__ pdict = Ok p) as H by (vm_compute; reflexivity).
  split; [exact H|].
  exact (AptInstallPlugin_timeout_is_dropped sample_env pdict p (Py.VInt 7200) H).
Defined.

(** ** A plugin step that fails *)

Lemma get_steps_before_stop_on_fail env plugin step :
  step ∈ get_steps_before env plugin → stop_on_fail step = true.
Proof.
  destruct plugin as [p|p]; cbn [get_steps_before];
    unfold PythonVenvPlugin_get_steps_before, AptInstallPlugin_get_steps_before;
    intros Hin;
    (apply elem_of_cons in Hin as [->|Hin]; [reflexivity|]);
    (apply elem_of_cons in Hin as [->|Hin]; [reflexivity|]);
    apply elem_of_nil in Hin; contradiction.
Qed.

(** X20: The steps the plugins put before the steps of the configuration
    all stop the build when they fail: if one of them ends fail or
    exception, it is the last step of the build, and no step of the
    configuration runs. *)
Theorem failed_plugin_step_ends_the_build (env : Env) (T : nat) (bconf : BuilderConf)
    (workdir platform : string) (remove_env : bool) (envvars : gmap string string)
    (h h' : Heap) (b : Builder) (w : RunState) (bi : BuildInfo) (w' : RunState)
    (i : nat) (info : StepInfo) :
  Builder__init__ env T bconf workdir platform remove_env envvars h = (Ok b, h') →
  self w = b →
  Builder__do_build env w = (Ok bi, w') →
  bi_steps bi !! i = Some info →
  i < length (concat (map (get_steps_before env) (plugins b))) →
  si_status info = fail ∨ si_status info = exception →
  length (bi_steps bi) = S i.
Proof.
  intros Hinit Hself H Hi Hlt Hstatus.
  apply Builder_steps_layout_aux in Hinit as (confs & user & _ & Hsteps & _).
  apply Builder__do_build_passes in H as (runs & new & _ & _ & _ & Hok).
  destruct (Hok bi eq_refl) as [Hruns ->]. cbn [bi_steps] in *.
  apply loop_runs_facts in Hruns as [_ Hfacts].
  rewrite length_map. rewrite list_lookup_fmap in Hi.
  destruct (runs !! i) as [run|] eqn:Hrun; [|discriminate].
  injection Hi as <-.
  destruct (Hfacts i run Hrun) as (step & Hstep & _ & Hbreak & _).
  apply Hbreak, stops_spec. right. split; [exact Hstatus|].
  rewrite Hself, Hsteps, lookup_app_l in Hstep by exact Hlt.
  apply list_elem_of_lookup_2, elem_of_concat in Hstep as (l & Hin & Hl).
  apply list_elem_of_fmap in Hl as (plugin & -> & _).
  eapply get_steps_before_stop_on_fail, Hin.
Qed.

Lemma failed_plugin_step_ends_the_build_witness :
  ∃ b h' bi w' info,
    Builder__init__ no_network_env 0 apt_conf "src" "linux-generic" true ∅ apt_heap
      = (Ok b, h')
    ∧ self (fresh b) = b
    ∧ Builder__do_build no_network_env (fresh b) = (Ok bi, w')
    ∧ bi_steps bi !! 0 = Some info
    ∧ 0 < length (concat (map (get_steps_before no_network_env) (plugins b)))
    ∧ (si_status info = fail ∨ si_status info = exception)
    ∧ length (steps b) = 3
    ∧ length (bi_steps bi) = 1.
Proof.
  destruct (Builder__init__ no_network_env 0 apt_conf "src" "linux-generic" true ∅ apt_heap)
    as [r h'] eqn:Hinit.
  eassert (r = Ok _) as Hr.
  { change r with (r, h').1. rewrite <- Hinit. vm_compute. reflexivity. }
  rewrite Hr in Hinit. rewrite Hr. eexists _, h', _, _, _. split; [reflexivity|].
  match goal with |- ?A ∧ _ => assert A as Hself by reflexivity end.
  split; [exact Hself|].
  match goal with |- ?A ∧ _ => assert A as H by (vm_compute; reflexivity) end.
  split; [exact H|].
  match goal with |- ?A ∧ _ => assert A as Hi by (vm_compute; reflexivity) end.
  split; [exact Hi|].
  match goal with |- ?A ∧ _ => assert A as Hlt by (vm_compute; lia) end.
  split; [exact Hlt|].
  match goal with |- ?A ∧ _ => assert A as Hst by (left; reflexivity) end.
  split; [exact Hst|]. split; [reflexivity|].
  exact (failed_plugin_step_ends_the_build no_network_env 0 apt_conf "src" "linux-generic"
           true ∅ apt_heap _ _ _ _ _ 0 _ Hinit Hself H Hi Hlt Hst).
Defined.
